(** * piano_on: the piano / non-piano baseline pipeline

    A shallow embedding of [ml/scripts/train_baseline.py] and
    [ml/scripts/predict_file.py], and the properties of the feature
    extractor, the dataset assembly loop, the two-stage split, the decision
    threshold and the model artifact that the design document states.

    Python floats are binary64 numbers: they are embedded as Rocq's primitive
    floats, so that [1.0 - cfg["train_split"]] and [p >= 0.5] are the very
    operations the interpreter runs.  The numeric libraries the scripts call
    (numpy, librosa, scikit-learn, joblib, yaml/pandas readers) are not part
    of the repository: each is an interface (a type class) whose operations
    the scripts are written against. *)

From Stdlib Require Import ZArith Floats.PrimFloat Ascii.
From stdpp Require Import base option list sorting gmap strings pretty.

Set Warnings "-inexact-float".
Local Open Scope Z_scope.

(** ** The Python runtime: exceptions, results, printing *)

Module Py.

(** An exception object: its class name and [str(ex)]. *)
Record exn := Exn { exn_class : string; exn_str : string }.

(** The outcome of evaluating an expression: a value, or a raised
    exception. *)
Inductive result (A : Type) : Type :=
| Ok (a : A)
| Raise (e : exn).
Arguments Ok {A} a.
Arguments Raise {A} e.

Definition rbind {A B} (r : result A) (k : A -> result B) : result B :=
  match r with
  | Ok a => k a
  | Raise e => Raise e
  end.

Definition bytes := list Byte.byte.

(** What a script run can change: the lines printed so far and the regular
    files on disk (content by the name under which the script, or for the
    training and prediction scripts the operating system, knows the file). *)
Record world := World {
  stdout : list string;
  files : gmap string bytes;
}.

(** A statement sequence: it may print and write files, and it either
    completes with a value or stops at a raised exception; what was printed
    and written before the exception stays. *)
Definition M (A : Type) : Type := world -> result A * world.

Definition ret {A} (a : A) : M A := fun w => (Ok a, w).

Definition bind {A B} (m : M A) (k : A -> M B) : M B :=
  fun w =>
    match m w with
    | (Ok a, w') => k a w'
    | (Raise e, w') => (Raise e, w')
    end.

Definition raise {A} (e : exn) : M A := fun w => (Raise e, w).

Definition lift {A} (r : result A) : M A := fun w => (r, w).

Definition print (line : string) : M unit :=
  fun w => (Ok tt, World (stdout w ++ [line]) (files w)).

Definition print_all (lines : list string) : M unit :=
  fun w => (Ok tt, World (stdout w ++ lines) (files w)).

Definition write_bytes (path : string) (content : bytes) : M unit :=
  fun w => (Ok tt, World (stdout w) (<[path := content]> (files w))).

Definition read_bytes (path : string) : M bytes :=
  fun w =>
    match files w !! path with
    | Some b => (Ok b, w)
    | None => (Raise (Exn "FileNotFoundError" path), w)
    end.

End Py.
Export Py.

(** Both [result] and [M] are used with stdpp's monad notation
    ([x ← m; k]). *)
#[export] Instance result_ret : MRet result := @Ok.
#[export] Instance result_bind : MBind result := fun A B k r => rbind r k.
#[export] Instance result_fmap : FMap result :=
  fun A B f r => rbind r (fun a => Ok (f a)).
#[export] Instance M_ret : MRet M := @Py.ret.
#[export] Instance M_bind : MBind M := fun A B k m => Py.bind m k.

(** ** Data *)

(** A one-dimensional sample array and a two-dimensional array of binary64
    numbers ([np.ndarray]). *)
Abbreviation samples := (list float).
Abbreviation ndarray := (list (list float)).

(** A [np.float32] scalar.  The payload is the binary64 number that carries
    the rounded value; rounding itself is numpy's ([Numpy.astype_float32]). *)
Record float32 := F32 { f32_value : float }.

(** A feature vector: a one-dimensional [float32] array. *)
Abbreviation fvec := (list float32).

(** The configuration document ([train_config.yaml]) with its recognized
    keys. *)
Record Config := {
  sample_rate : Z;
  max_duration_seconds : float;
  n_fft : Z;
  hop_length : Z;
  n_mels : Z;
  train_split : float;
  val_split : float;
  test_split : float;
  seed : Z;
  classifier_C : float;
  classifier_max_iter : Z;
  classifier_class_weight : option string;
}.

(** A cell of the manifest's [label] column as pandas hands it over: an
    integer, or a value on which [int(...)] raises (a missing value read as
    NaN, free text). *)
Inductive cell :=
| IntCell (z : Z)
| NotInt (why : string).

Definition py_int (c : cell) : result Z :=
  match c with
  | IntCell z => Ok z
  | NotInt why => Raise (Exn "ValueError" why)
  end.

(** A manifest row ([df.itertuples]). *)
Record row := Row { row_path : string; row_label : cell }.

(** ** The libraries the scripts are written against *)

Class Numpy := {
  np_mean : ndarray -> float;
  np_std : ndarray -> float;
  np_percentile : ndarray -> Z -> float;
  (** the cast to [dtype=np.float32] *)
  astype_float32 : float -> float32;
  (** [a + c] for an array and a Python float: the sum, element by element,
      in the precision of the array ([mel + 1e-10]) *)
  add_scalar : ndarray -> float -> ndarray;
}.

Class Librosa := {
  (** [librosa.load(path, sr=..., mono=True, duration=...)]: the decoded
      samples and the sample rate, or the decoder's exception. *)
  load : string -> Z -> float -> result (samples * Z);
  (** [librosa.feature.melspectrogram(y, sr, n_fft, hop_length, n_mels, power)] *)
  melspectrogram : samples -> Z -> Z -> Z -> Z -> float -> ndarray;
  power_to_db : ndarray -> ndarray;
  spectral_centroid : samples -> Z -> ndarray;
  spectral_rolloff : samples -> Z -> ndarray;
  zero_crossing_rate : samples -> ndarray;
  rms : samples -> ndarray;
}.

Class Sklearn := {
  (** a fitted [LogisticRegression] *)
  Model : Type;
  (** the dictionary [classification_report(..., output_dict=True)] returns *)
  Report : Type;
  (** [next(StratifiedShuffleSplit(test_size, random_state).split(X, y))],
      the step of [train_test_split] that chooses rows: from the array, the
      labels to stratify on, the test fraction and the seed it gives the row
      positions of the train part and of the test part. *)
  shuffle_split : list fvec -> list Z -> float -> Z -> result (list nat * list nat);
  (** [LogisticRegression(C, max_iter, class_weight).fit(X, y)] *)
  fit : float -> Z -> option string -> list fvec -> list Z -> result Model;
  (** [model.predict_proba(X)]: one row [(P(class 0), P(class 1))] per
      row of [X] *)
  predict_proba : Model -> list fvec -> result (list (float * float));
  classification_report : list Z -> list Z -> result Report;
  roc_auc_score : list Z -> list float -> result float;
}.

(** A Python object that ends up in the artifact dictionary. *)
Inductive pyobj `{Sklearn} :=
| PyModel (m : Model)
| PyConfig (c : Config).

Class Joblib `{Sklearn} := {
  (** the byte stream [joblib.dump] writes for a dictionary *)
  dumps : gmap string pyobj -> bytes;
  (** what [joblib.load] rebuilds from a byte stream, or its exception *)
  loads : bytes -> result (gmap string pyobj);
}.

(** The [metrics] dictionary of the training script. *)
Record Metrics `{Sklearn} := {
  val_report : Report;
  test_report : Report;
  val_auc : float;
  test_auc : float;
  num_samples : Z;
}.

(** Readers and formatters of the standard library and of yaml/pandas. *)
Class Runtime `{Sklearn} := {
  (** [yaml.safe_load(Path(p).read_text(encoding="utf-8"))] *)
  read_config : string -> result Config;
  (** [pd.read_csv(p)], as the rows [df.itertuples(index=False)] yields *)
  read_csv : string -> result (list row);
  (** [json.dumps(metrics, indent=2)] *)
  json_dumps : Metrics -> string;
  (** the format specification [:.4f] *)
  format_4f : float -> string;
}.

Class Pathlib := {
  (** [str(Path(s))] *)
  path_str : string -> string;
  (** [str(Path(s).parent)] *)
  parent : string -> string;
  (** [str(Path(d) / name)] *)
  joinpath : string -> string -> string;
  (** [Path(p).suffix] *)
  suffix : string -> string;
  (** the tree the manifest script walks: [Path(d).exists()],
      [[str(p) for p in Path(d).rglob("*")]] and, for such a [p],
      [p.is_file()] *)
  path_exists : string -> bool;
  rglob_all : string -> list string;
  is_file : string -> bool;
}.

(** The operating system under the training and the prediction script. *)
Class Os := {
  (** the file a path names once the system has resolved it (working
      directory, [.] and [..], links): two paths name one file exactly when
      they resolve alike *)
  realpath : string -> string;
  (** [Path(d).mkdir(parents=True, exist_ok=True)]: done, or the [OSError]
      it raises (a file in the way, no permission) *)
  mkdir_parents : string -> result unit;
  (** the [OSError] with which opening a path for writing fails, when it
      does *)
  open_error : string -> option exn;
}.

(** Writing a whole file ([joblib.dump(obj, path)],
    [path.write_text(...)]): nothing changes when the file cannot be
    opened. *)
Definition write_file `{Os} (path : string) (content : bytes) : M unit :=
  fun w =>
    match open_error path with
    | Some e => (Raise e, w)
    | None => (Ok tt, World (stdout w) (<[realpath path := content]> (files w)))
    end.

(** Reading a whole file. *)
Definition read_file `{Os} (path : string) : M bytes :=
  fun w =>
    match files w !! realpath path with
    | Some b => (Ok b, w)
    | None => (Raise (Exn "FileNotFoundError" path), w)
    end.

(** [np.zeros(n, dtype=np.float32)] *)
Definition np_zeros (n : nat) : fvec := replicate n (F32 0%float).

(** [np.array(feats, dtype=np.float32)] *)
Definition np_array_f32 `{Numpy} (feats : list float) : fvec :=
  map astype_float32 feats.

(** [np.vstack(X)] for a Python list of one-dimensional arrays: it raises on
    an empty list and on rows of different lengths. *)
Definition np_vstack (X : list fvec) : result (list fvec) :=
  match X with
  | [] => Raise (Exn "ValueError" "need at least one array to concatenate")
  | v :: rest =>
      if forallb (fun u => (length u =? length v)%nat) rest then Ok X
      else Raise (Exn "ValueError"
             "all the input array dimensions except for the concatenation axis must match exactly")
  end.

(** [np.array(y, dtype=np.int64)] for a Python list of integers: it raises
    an [OverflowError] on an integer outside the 64-bit range (the wording
    of the message is that of one numpy version). *)
Definition np_array_int64 (y : list Z) : result (list Z) :=
  if forallb (fun l => (- 2 ^ 63 <=? l) && (l <? 2 ^ 63)) y then Ok y
  else Raise (Exn "OverflowError" "Python int too large to convert to C long").

(** [np.unique(y)]: the sorted distinct values. *)
Definition np_unique (y : list Z) : list Z := merge_sort Z.le (remove_dups y).

(** [p >= 0.5] on binary64 numbers. *)
Definition ge_half (p : float) : bool := PrimFloat.leb 0.5%float p.

(** [(prob >= 0.5).astype(int)] *)
Definition threshold (prob : list float) : list Z :=
  map (fun p => Z.b2z (ge_half p)) prob.

(** [_safe_indexing(a, idx)]: the rows of [a] at the positions [idx], in that
    order. *)
Definition safe_indexing {A} (a : list A) (idx : list nat) : result (list A) :=
  match mapM (fun i => a !! i) idx with
  | Some rows => Ok rows
  | None => Raise (Exn "IndexError" "index out of bounds")
  end.

(** [train_test_split(X, y, test_size=..., random_state=..., stratify=...)]:
    scikit-learn checks that the arrays have one length, lets the stratified
    shuffle choose the row positions, and indexes every array with them. *)
Definition train_test_split `{Sklearn} (X : list fvec) (y : list Z)
    (test_size : float) (random_state : Z) (stratify : list Z)
    : result (list fvec * list fvec * list Z * list Z) :=
  if negb (length X =? length y)%nat then
    Raise (Exn "ValueError" "Found input variables with inconsistent numbers of samples")
  else
    '(train, test) ← shuffle_split X stratify test_size random_state;
    X_train ← safe_indexing X train;
    X_test ← safe_indexing X test;
    y_train ← safe_indexing y train;
    y_test ← safe_indexing y test;
    Ok (X_train, X_test, y_train, y_test).

(** ** [featurize], as written in both scripts *)

Module TrainBaseline.
Section Script.
Context `{Numpy} `{Librosa}.

Definition featurize (path : string) (cfg : Config) : result fvec :=
  '(y, sr) ← load path (sample_rate cfg) (max_duration_seconds cfg);
  if (length y =? 0)%nat then Ok (np_zeros 12) else
  let mel := melspectrogram y sr (n_fft cfg) (hop_length cfg) (n_mels cfg) 2%float in
  let logmel := power_to_db (add_scalar mel 1e-10%float) in
  let feats :=
    [ np_mean logmel;
      np_std logmel;
      np_percentile logmel 10;
      np_percentile logmel 50;
      np_percentile logmel 90 ] in
  let centroid := spectral_centroid y sr in
  let rolloff := spectral_rolloff y sr in
  let zcr := zero_crossing_rate y in
  let rms_ := rms y in
  let feats :=
    foldl (fun feats arr => (feats ++ [np_mean arr]) ++ [np_std arr])
          feats [centroid; rolloff; zcr; rms_] in
  Ok (np_array_f32 feats).

Context `{!Sklearn} `{!Joblib} `{!Runtime} `{!Pathlib} `{!Os}.

Record Args := {
  manifest : string;
  config : string;
  model_out : string;
  report_out : string;
}.

(** The local lists of [main]'s loop and the lines it has printed. *)
Record acc := Acc {
  acc_X : list fvec;
  acc_y : list Z;
  acc_kept : list string;
  acc_out : list string;
}.

(** [print(f"skip {row.path}: {ex}")] *)
Definition skip_line (r : row) (ex : exn) : string :=
  "skip " +:+ row_path r +:+ ": " +:+ exn_str ex.

(** One iteration of the [for row in df.itertuples(...)] loop: the three
    statements of the [try] block in their order, each one's effect staying
    when a later one raises, and the [except Exception] handler. *)
Definition loop_body (cfg : Config) (a : acc) (r : row) : acc :=
  match featurize (row_path r) cfg with
  | Raise ex =>
      Acc (acc_X a) (acc_y a) (acc_kept a) (acc_out a ++ [skip_line r ex])
  | Ok v =>
      let X := acc_X a ++ [v] in
      match py_int (row_label r) with
      | Raise ex =>
          Acc X (acc_y a) (acc_kept a) (acc_out a ++ [skip_line r ex])
      | Ok l =>
          Acc X (acc_y a ++ [l]) (acc_kept a ++ [row_path r]) (acc_out a)
      end
  end.

Definition assemble (cfg : Config) (df : list row) : acc :=
  foldl (loop_body cfg) (Acc [] [] [] []) df.

(** The guard on the number of classes. *)
Definition check_classes (y : list Z) : result unit :=
  let unique := np_unique y in
  if (length unique <? 2)%nat then
    Raise (Exn "RuntimeError"
      "Training requires at least 2 classes. Add non-piano clips under ml/data/raw/non_piano.")
  else Ok tt.

(** The two calls of [train_test_split]. *)
Record Split := {
  X_train : list fvec; X_val : list fvec; X_test : list fvec;
  y_train : list Z; y_val : list Z; y_test : list Z;
}.

(** [cfg["val_split"] / (cfg["val_split"] + cfg["test_split"])]: Python's
    division raises on a zero divisor. *)
Definition val_ratio (cfg : Config) : result float :=
  if PrimFloat.eqb (val_split cfg + test_split cfg) 0 then
    Raise (Exn "ZeroDivisionError" "float division by zero")
  else Ok (val_split cfg / (val_split cfg + test_split cfg))%float.

Definition split (cfg : Config) (X : list fvec) (y : list Z) : result Split :=
  '(X_train, X_temp, y_train, y_temp) ←
    train_test_split X y (1 - train_split cfg)%float (seed cfg) y;
  val_ratio ← val_ratio cfg;
  '(X_val, X_test, y_val, y_test) ←
    train_test_split X_temp y_temp (1 - val_ratio)%float (seed cfg) y_temp;
  Ok {| X_train := X_train; X_val := X_val; X_test := X_test;
        y_train := y_train; y_val := y_val; y_test := y_test |}.

(** [{"model": model, "config": cfg}] *)
Definition artifact (model : Model) (cfg : Config) : gmap string pyobj :=
  <["model" := PyModel model]> (<["config" := PyConfig cfg]> ∅).

(** Everything after the loop: stacking, the class guard, the split, the
    fit, the evaluation and the two files, each written after its directory
    has been made. *)
Definition train (cfg : Config) (args : Args) (X : list fvec) (y : list Z)
    : M unit :=
  X ← lift (np_vstack X);
  y ← lift (np_array_int64 y);
  lift (check_classes y);;
  s ← lift (split cfg X y);
  model ← lift (fit (classifier_C cfg) (classifier_max_iter cfg)
                    (classifier_class_weight cfg) (X_train s) (y_train s));
  val_prob ← lift (map snd <$> predict_proba model (X_val s));
  test_prob ← lift (map snd <$> predict_proba model (X_test s));
  let val_pred := threshold val_prob in
  let test_pred := threshold test_prob in
  vr ← lift (classification_report (y_val s) val_pred);
  tr ← lift (classification_report (y_test s) test_pred);
  va ← lift (roc_auc_score (y_val s) val_prob);
  ta ← lift (roc_auc_score (y_test s) test_prob);
  let metrics :=
    {| val_report := vr; test_report := tr; val_auc := va; test_auc := ta;
       num_samples := Z.of_nat (length y) |} in
  lift (mkdir_parents (parent (model_out args)));;
  write_file (path_str (model_out args)) (dumps (artifact model cfg));;
  lift (mkdir_parents (parent (report_out args)));;
  write_file (path_str (report_out args))
             (String.list_byte_of_string (json_dumps metrics));;
  print ("model: " +:+ path_str (model_out args));;
  print ("report: " +:+ path_str (report_out args));;
  print ("val_auc=" +:+ format_4f (val_auc metrics) +:+
         " test_auc=" +:+ format_4f (test_auc metrics)).

Definition main (args : Args) : M unit :=
  cfg ← lift (read_config (config args));
  df ← lift (read_csv (manifest args));
  let a := assemble cfg df in
  print_all (acc_out a);;
  train cfg args (acc_X a) (acc_y a).

End Script.
End TrainBaseline.

Module PredictFile.
Section Script.
Context `{Numpy} `{Librosa}.

Definition featurize (path : string) (cfg : Config) : result fvec :=
  '(y, sr) ← load path (sample_rate cfg) (max_duration_seconds cfg);
  if (length y =? 0)%nat then Ok (np_zeros 12) else
  let mel := melspectrogram y sr (n_fft cfg) (hop_length cfg) (n_mels cfg) 2%float in
  let logmel := power_to_db (add_scalar mel 1e-10%float) in
  let feats :=
    [ np_mean logmel;
      np_std logmel;
      np_percentile logmel 10;
      np_percentile logmel 50;
      np_percentile logmel 90 ] in
  let centroid := spectral_centroid y sr in
  let rolloff := spectral_rolloff y sr in
  let zcr := zero_crossing_rate y in
  let rms_ := rms y in
  let feats :=
    foldl (fun feats arr => (feats ++ [np_mean arr]) ++ [np_std arr])
          feats [centroid; rolloff; zcr; rms_] in
  Ok (np_array_f32 feats).

Context `{!Sklearn} `{!Joblib} `{!Runtime} `{!Os}.

Record Args := {
  audio_path : string;
  model : string;
  config : string;
}.

(** [joblib.load(path)] *)
Definition joblib_load (path : string) : M (gmap string pyobj) :=
  b ← read_file path;
  lift (loads b).

(** [pack["model"]] *)
Definition pack_model (pack : gmap string pyobj) : result pyobj :=
  match pack !! "model" with
  | None => Raise (Exn "KeyError" "'model'")
  | Some o => Ok o
  end.

(** [model.predict_proba(x)] on the object the entry holds: only a
    classifier has the method. *)
Definition obj_predict_proba (model : pyobj) (x : list fvec)
    : result (list (float * float)) :=
  match model with
  | PyModel m => predict_proba m x
  | PyConfig _ =>
      Raise (Exn "AttributeError" "'dict' object has no attribute 'predict_proba'")
  end.

(** [model.predict_proba(x)[0, 1]] *)
Definition proba_0_1 (model : pyobj) (x : list fvec) : result float :=
  rows ← obj_predict_proba model x;
  match rows with
  | (_, p1) :: _ => Ok p1
  | [] => Raise (Exn "IndexError" "index 0 is out of bounds for axis 0 with size 0")
  end.

Definition main (args : Args) : M unit :=
  cfg ← lift (read_config (config args));
  pack ← joblib_load (model args);
  model ← lift (pack_model pack);
  x ← lift ((fun v => [v]) <$> featurize (audio_path args) cfg);
  p ← lift (proba_0_1 model x);
  let pred := Z.b2z (ge_half p) in
  print ("file=" +:+ audio_path args);;
  print ("piano_probability=" +:+ format_4f p);;
  print ("prediction=" +:+ (if (pred =? 0) then "non_piano" else "piano")).

End Script.
End PredictFile.

(** ** Python strings, slices and loops used by the data scripts *)

Module PyStr.

(** [c.lower()] for an ASCII letter; every other byte is left alone.  The
    scripts lower a string only to test it against ASCII suffixes
    ([".wav"], [".aiff"], the audio extensions), and no character outside
    ASCII lowers to a character of those suffixes, so the tests come out as
    they do on Python's strings. *)
Definition lower_char (c : ascii) : ascii :=
  let n := N_of_ascii c in
  if ((65 <=? n) && (n <=? 90))%N then ascii_of_N (n + 32) else c.

Fixpoint lower (s : string) : string :=
  match s with
  | EmptyString => EmptyString
  | String c s' => String (lower_char c) (lower s')
  end.

(** [s.endswith(suffix)] *)
Fixpoint endswith (s suffix : string) : bool :=
  String.eqb s suffix ||
  match s with
  | EmptyString => false
  | String _ s' => endswith s' suffix
  end.

(** [s.startswith(prefix)] *)
Definition startswith (s prefix : string) : bool := String.prefix prefix s.

(** [s.lstrip(c)] for a single character [c] *)
Fixpoint lstrip (c : ascii) (s : string) : string :=
  match s with
  | EmptyString => EmptyString
  | String c' s' => if Ascii.eqb c' c then lstrip c s' else s
  end.

(** [s.split("/")[-1]]: what follows the last slash, the whole string when
    there is none. *)
Fixpoint last_component_from (current s : string) : string :=
  match s with
  | EmptyString => current
  | String c s' =>
      if Ascii.eqb c "/"%char then last_component_from EmptyString s'
      else last_component_from (current +:+ String c EmptyString) s'
  end.

Definition last_component (s : string) : string :=
  last_component_from EmptyString s.

(** [l[:n]] for a Python integer [n]: a negative [n] counts from the end. *)
Definition slice_to {A} (l : list A) (n : Z) : list A :=
  if 0 <=? n then take (Z.to_nat n) l
  else take (length l - Z.to_nat (- n)) l.

(** The order of [sorted] on strings: code point order, which on UTF-8 text
    is the order of the bytes. *)
Definition str_le (a b : string) : Prop := String.leb a b = true.

#[export] Instance str_le_dec a b : Decision (str_le a b).
Proof. unfold str_le. apply _. Defined.

(** [sorted(set(l))] *)
Definition sorted_set (l : list string) : list string :=
  merge_sort str_le (remove_dups l).

(** [for x in l: f(x)] *)
Fixpoint for_each {A} (f : A -> M unit) (l : list A) : M unit :=
  match l with
  | [] => mret tt
  | x :: l' => f x ;; for_each f l'
  end.

(** [enumerate(l, start=1)] *)
Definition enumerate1 {A} (l : list A) : list (nat * A) :=
  zip (seq 1 (length l)) l.

End PyStr.

(** ** The libraries of the data scripts *)

(** A [requests] response. *)
Record Response := {
  status_code : Z;
  text : string;
  content : bytes;
}.

Class Requests := {
  (** [session.get(url, timeout=...)]: the response, or the exception of a
      failed connection. *)
  session_get : string -> result Response;
  (** the message of the [HTTPError] that [raise_for_status] raises *)
  http_error_str : Response -> string;
}.

(** [r.raise_for_status()]: an error for the status codes 400 to 599. *)
Definition raise_for_status `{Requests} (r : Response) : result unit :=
  if (400 <=? status_code r) && (status_code r <? 600)
  then Raise (Exn "HTTPError" (http_error_str r))
  else Ok tt.

Class Bs4 := {
  (** [[a.get("href") for a in BeautifulSoup(text, "html.parser").find_all("a")]] *)
  anchor_hrefs : string -> list (option string);
}.

(** A row of the manifest under construction: [{"path": ..., "label": ...}]. *)
Record mrow := MRow { m_path : string; m_label : Z }.

Class Pandas := {
  (** the row positions [df.sample(frac=1.0, random_state=seed)] draws, from
      the number of rows and the seed *)
  sample_positions : nat -> Z -> list nat;
  (** the text [df.to_csv(out, index=False)] writes *)
  to_csv : list mrow -> bytes;
  (** how [print] shows a series of counts, given its index labels and
      values *)
  series_str : list (string * nat) -> string;
}.

(** ** [download_uiowa_piano.py] *)

Module DownloadUiowaPiano.
Section Script.
Context `{Requests} `{Bs4} `{Pathlib}.

Import PyStr.

Definition BASE : string := "https://theremin.music.uiowa.edu".
Definition PAGE : string := BASE +:+ "/MISpiano.html".

(** The body of the loop over the anchors: [links] after one more [href]. *)
Definition visit_anchor (links : list string) (href : option string) : list string :=
  match href with
  | None => links
  | Some href =>
      if String.eqb href "" then links else
      let href_l := lower href in
      if negb (endswith href_l ".aiff" || endswith href_l ".wav") then links else
      let url :=
        if startswith href "http" then href
        else BASE +:+ "/" +:+ lstrip "/"%char href in
      links ++ [url]
  end.

Definition discover_links : result (list string) :=
  r ← session_get PAGE;
  raise_for_status r;;
  let links := foldl visit_anchor [] (anchor_hrefs (text r)) in
  Ok (sorted_set links).

Record Args := {
  out : string;
  limit : Z;
}.

(** [target.exists() and target.stat().st_size > 0], the world holding
    regular files. *)
Definition exists_nonempty (target : string) : M bool :=
  fun w =>
    (Ok (match files w !! target with
         | Some b => negb (length b =? 0)%nat
         | None => false
         end), w).

(** One iteration of the download loop. *)
Definition download_one (out_dir : string) (total : nat) (item : nat * string)
    : M unit :=
  let '(idx, url) := item in
  let name := last_component url in
  let target := joinpath out_dir name in
  present ← exists_nonempty target;
  if present : bool then
    print ("[" +:+ pretty idx +:+ "/" +:+ pretty total +:+ "] exists " +:+ name)
  else
    (print ("[" +:+ pretty idx +:+ "/" +:+ pretty total +:+ "] download " +:+ name);;
     resp ← lift (session_get url);
     lift (raise_for_status resp);;
     write_bytes target (content resp) : M unit).

(** The script's [main].  The output directory is created first
    ([mkdir(parents=True, exist_ok=True)]); directories are not part of the
    world, which holds regular files. *)
Definition main (args : Args) : M unit :=
  urls ← lift discover_links;
  if bool_decide (urls = []) then
    raise (Exn "RuntimeError" "No sample links discovered from source page")
  else
    let selected := slice_to urls (limit args) in
    print ("Discovered " +:+ pretty (length urls) +:+ " links, downloading "
           +:+ pretty (length selected));;
    for_each (download_one (out args) (length selected)) (enumerate1 selected);;
    print ("Done. Files in: " +:+ path_str (out args)).

End Script.
End DownloadUiowaPiano.

(** ** [prepare_manifest.py] *)

Module PrepareManifest.
Section Script.
Context `{Pathlib} `{Pandas}.

Import PyStr.

Definition AUDIO_EXTS : list string :=
  [".wav"; ".mp3"; ".m4a"; ".aac"; ".wma"; ".flac"; ".aiff"; ".aif"].

Definition collect (split_dir : string) (label : Z) : list mrow :=
  if negb (path_exists split_dir) then []
  else
    foldl (fun rows p =>
             if is_file p && bool_decide (lower (suffix p) ∈ AUDIO_EXTS)
             then rows ++ [MRow p label]
             else rows)
          [] (rglob_all split_dir).

(** [df.drop_duplicates(subset=["path"])]: the first row of every path. *)
Fixpoint drop_duplicates (seen : list string) (rows : list mrow) : list mrow :=
  match rows with
  | [] => []
  | r :: rows' =>
      if bool_decide (m_path r ∈ seen) then drop_duplicates seen rows'
      else r :: drop_duplicates (m_path r :: seen) rows'
  end.

(** [df.sample(frac=1.0, random_state=seed).reset_index(drop=True)] *)
Definition sample_all (rows : list mrow) (random_state : Z) : result (list mrow) :=
  safe_indexing rows (sample_positions (length rows) random_state).

(** [df.label.value_counts().sort_index().rename(index={0: 'non_piano',
    1: 'piano_or_mixed'})]: for every label that occurs, in ascending order,
    its name and its number of rows. *)
Definition label_name (l : Z) : string :=
  if l =? 0 then "non_piano" else if l =? 1 then "piano_or_mixed" else pretty l.

Definition label_counts (df : list mrow) : list (string * nat) :=
  (fun l => (label_name l, length (filter (fun r => m_label r = l) df)))
    <$> merge_sort Z.le (remove_dups (m_label <$> df)).

Record Args := {
  root : string;
  out : string;
}.

(** The script's [main]; creating the parent directory of the manifest is
    left out, as directories are not part of the world. *)
Definition main (args : Args) : M unit :=
  let rows :=
    collect (joinpath (root args) "piano") 1
    ++ collect (joinpath (root args) "non_piano") 0
    ++ collect (joinpath (root args) "mixed") 1 in
  if bool_decide (rows = []) then
    raise (Exn "RuntimeError" "No audio files found under ml/data/raw")
  else
    df ← lift (sample_all (drop_duplicates [] rows) 42);
    write_bytes (path_str (out args)) (to_csv df);;
    print ("manifest: " +:+ path_str (out args));;
    print (series_str (label_counts df)).

End Script.
End PrepareManifest.

(** ** Views of a run, used to state the properties *)

Section Views.
Context `{Numpy} `{Librosa}.

(** The thirteen statistics of a non-empty signal, in the order of the
    source. *)
Definition layout (y : samples) (sr : Z) (cfg : Config) : list float :=
  let logmel :=
    power_to_db
      (add_scalar (melspectrogram y sr (n_fft cfg) (hop_length cfg) (n_mels cfg) 2)
                  1e-10) in
  [ np_mean logmel; np_std logmel;
    np_percentile logmel 10; np_percentile logmel 50; np_percentile logmel 90;
    np_mean (spectral_centroid y sr); np_std (spectral_centroid y sr);
    np_mean (spectral_rolloff y sr); np_std (spectral_rolloff y sr);
    np_mean (zero_crossing_rate y); np_std (zero_crossing_rate y);
    np_mean (rms y); np_std (rms y) ].

(** The rows of a manifest whose file featurizes, each with its vector,
    and the rows whose file does not, each with the exception, both in
    manifest order. *)
Definition kept (cfg : Config) (df : list row) : list (row * fvec) :=
  omap (fun r => match TrainBaseline.featurize (row_path r) cfg with
                 | Ok v => Some (r, v)
                 | Raise _ => None
                 end) df.

Definition skipped (cfg : Config) (df : list row) : list (row * exn) :=
  omap (fun r => match TrainBaseline.featurize (row_path r) cfg with
                 | Ok _ => None
                 | Raise ex => Some (r, ex)
                 end) df.

(** A row as the manifest format has it: the label cell is an integer. *)
Definition int_labelled (r : row) : Prop := exists z, row_label r = IntCell z.

End Views.

(** What scikit-learn's documentation promises of the shuffle: the positions
    of the train part and of the test part are, together, every row position
    once. *)
Definition shuffle_split_partitions `{Sklearn} : Prop :=
  forall X stratify test_size random_state train test,
    shuffle_split X stratify test_size random_state = Ok (train, test) ->
    train ++ test ≡ₚ seq 0 (length X).

(** What scikit-learn's shuffle reads of the array: its number of rows
    ([_num_samples(X)]), and nothing of their content. *)
Definition shuffle_split_by_position `{Sklearn} : Prop :=
  forall (X X' : list fvec) stratify test_size random_state,
    length X' = length X ->
    shuffle_split X' stratify test_size random_state
    = shuffle_split X stratify test_size random_state.

(** ** A small concrete installation

    One instance of every library interface, small enough to run the scripts
    in the kernel.  The general theorems below hold for every instance; these
    ones serve to evaluate the scripts on concrete files. *)

Module Sample.

Definition total (a : ndarray) : float := foldr PrimFloat.add 0%float (concat a).

Definition numpy : Numpy := {|
  np_mean := total;
  np_std := fun a => PrimFloat.mul 2 (total a);
  np_percentile := fun a q =>
    if q =? 10 then 0.125%float else if q =? 50 then 0.5%float else 0.875%float;
  astype_float32 := F32;
  add_scalar := fun a c => map (map (fun v => PrimFloat.add v c)) a;
|}.

Definition librosa : Librosa := {|
  load := fun path sr duration =>
    if String.eqb path "empty.wav" then Ok ([], sr)
    else if String.eqb path "corrupt.wav" then
      Raise (Exn "NoBackendError" "cannot decode corrupt.wav")
    else if String.eqb path "loud.wav" then Ok ([1; 1; 1]%float, sr)
    else Ok ([0.25; 0.5]%float, sr);
  melspectrogram := fun y sr n_fft hop n_mels power =>
    [map (fun v => PrimFloat.mul v v) y];
  power_to_db := fun a => a;
  spectral_centroid := fun y sr => [y];
  spectral_rolloff := fun y sr => [y; y];
  zero_crossing_rate := fun y => [[1%float]];
  rms := fun y => [[3%float]];
|}.

(** A classifier that answers every vector with its stored probability,
    and a splitter that cuts the rows in the middle. *)
Definition sklearn : Sklearn := {|
  Model := float;
  Report := unit;
  shuffle_split := fun X stratify test_size random_state =>
    let n := length X in
    Ok (seq 0 (n / 2), seq (n / 2) (n - n / 2))%nat;
  fit := fun C max_iter class_weight X y => Ok 0.5%float;
  predict_proba := fun m X => Ok (map (fun _ => ((1 - m)%float, m)) X);
  classification_report := fun y_true y_pred => Ok tt;
  roc_auc_score := fun y_true y_score => Ok 0.5%float;
|}.

Definition cfg : Config := {|
  sample_rate := 16000;
  max_duration_seconds := 10%float;
  n_fft := 1024;
  hop_length := 256;
  n_mels := 64;
  train_split := 0.8%float;
  val_split := 0.1%float;
  test_split := 0.1%float;
  seed := 42;
  classifier_C := 1%float;
  classifier_max_iter := 1000;
  classifier_class_weight := Some "balanced";
|}.

(** The same document with another sample rate and mel-band count. *)
Definition other_cfg : Config := {|
  sample_rate := 22050;
  max_duration_seconds := 10%float;
  n_fft := 1024;
  hop_length := 256;
  n_mels := 40;
  train_split := 0.8%float;
  val_split := 0.1%float;
  test_split := 0.1%float;
  seed := 42;
  classifier_C := 1%float;
  classifier_max_iter := 1000;
  classifier_class_weight := Some "balanced";
|}.

Definition stored : gmap string (@pyobj sklearn) :=
  <["model" := @PyModel sklearn 0.5%float]>
    (<["config" := @PyConfig sklearn cfg]> ∅).

(** The same model stored with the other configuration. *)
Definition stored_other : gmap string (@pyobj sklearn) :=
  <["model" := @PyModel sklearn 0.5%float]>
    (<["config" := @PyConfig sklearn other_cfg]> ∅).

(** A dictionary that holds the model and nothing else, as
    [joblib.dump({"model": model}, path)] stores it. *)
Definition stored_bare : gmap string (@pyobj sklearn) :=
  <["model" := @PyModel sklearn 0.5%float]> ∅.

(** A store that knows three byte streams: the one it writes, which holds
    the artifact this installation trains, one that holds the same model
    with the other configuration, and one that holds the model alone. *)
Definition joblib : @Joblib sklearn := {|
  dumps := fun d => [Byte.x80; Byte.x04];
  loads := fun b =>
    match b with
    | Byte.x00 :: _ => Ok stored_other
    | Byte.x01 :: _ => Ok stored_bare
    | _ => Ok stored
    end;
|}.

Definition df : list row :=
  [ Row "a.wav" (IntCell 1); Row "corrupt.wav" (IntCell 1);
    Row "b.wav" (IntCell 0); Row "loud.wav" (IntCell 1);
    Row "c.wav" (IntCell 0) ].

Definition runtime : @Runtime sklearn := {|
  read_config := fun p =>
    if String.eqb p "other.yaml" then Ok other_cfg else Ok cfg;
  read_csv := fun p =>
    if String.eqb p "broken.csv" then
      Ok [Row "corrupt.wav" (IntCell 1); Row "corrupt.wav" (IntCell 0)]
    else Ok df;
  json_dumps := fun m => "{}";
  format_4f := fun p => if PrimFloat.eqb p 0.5%float then "0.5000" else "?";
|}.

Definition w0 : world := World [] ∅.

(** Four examples with the labels 0, 1, 0, 1. *)
Definition X4 : list fvec := [[F32 1]; [F32 2]; [F32 3]; [F32 4]].
Definition y4 : list Z := [0; 1; 0; 1].

(** Eight examples with alternating labels, the same examples with the
    first and the fifth, both of label 0, exchanged, and a configuration
    that asks for a half, a quarter and a quarter. *)
Definition X8 : list fvec :=
  [[F32 1]; [F32 2]; [F32 3]; [F32 4]; [F32 5]; [F32 6]; [F32 7]; [F32 8]].
Definition X8_exchanged : list fvec :=
  [[F32 5]; [F32 2]; [F32 3]; [F32 4]; [F32 1]; [F32 6]; [F32 7]; [F32 8]].
Definition y8 : list Z := [0; 1; 0; 1; 0; 1; 0; 1].

Definition half_cfg : Config := {|
  sample_rate := 16000;
  max_duration_seconds := 10%float;
  n_fft := 1024;
  hop_length := 256;
  n_mels := 64;
  train_split := 0.5%float;
  val_split := 0.25%float;
  test_split := 0.25%float;
  seed := 42;
  classifier_C := 1%float;
  classifier_max_iter := 1000;
  classifier_class_weight := Some "balanced";
|}.

(** What the middle cut makes of [X4] and [y4]. *)
Definition split4 : TrainBaseline.Split := {|
  TrainBaseline.X_train := [[F32 1]; [F32 2]];
  TrainBaseline.X_val := [[F32 3]];
  TrainBaseline.X_test := [[F32 4]];
  TrainBaseline.y_train := [0; 1];
  TrainBaseline.y_val := [0];
  TrainBaseline.y_test := [1];
|}.

(** What the middle cut makes of [X8] and [y8] under [half_cfg]. *)
Definition split8 : TrainBaseline.Split := {|
  TrainBaseline.X_train := [[F32 1]; [F32 2]; [F32 3]; [F32 4]];
  TrainBaseline.X_val := [[F32 5]; [F32 6]];
  TrainBaseline.X_test := [[F32 7]; [F32 8]];
  TrainBaseline.y_train := [0; 1; 0; 1];
  TrainBaseline.y_val := [0; 1];
  TrainBaseline.y_test := [0; 1];
|}.


Definition broken_args : TrainBaseline.Args := {|
  TrainBaseline.manifest := "broken.csv";
  TrainBaseline.config := "train_config.yaml";
  TrainBaseline.model_out := "baseline_logreg.joblib";
  TrainBaseline.report_out := "baseline_metrics.json";
|}.

(** The examples the loop keeps from [df] and their split. *)
Definition kept_X : list fvec :=
  TrainBaseline.acc_X (@TrainBaseline.assemble numpy librosa cfg df).
Definition kept_y : list Z :=
  TrainBaseline.acc_y (@TrainBaseline.assemble numpy librosa cfg df).
Definition kept_split : TrainBaseline.Split :=
  match @TrainBaseline.split sklearn cfg kept_X kept_y with
  | Ok s => s
  | Raise _ => split4
  end.
(** A system run in one working directory, where a path and the same path
    after [./] name one file; it makes every directory but [readonly], and
    opens every file for writing. *)
Definition os : Os := {|
  realpath := fun p =>
    if String.prefix "./" p then String.substring 2 (String.length p - 2) p else p;
  mkdir_parents := fun d =>
    if String.eqb d "readonly" then
      Raise (Exn "PermissionError" "[Errno 13] Permission denied: 'readonly'")
    else Ok tt;
  open_error := fun p => None;
|}.

(** Prediction with a configuration document that differs from the one
    the model was trained with. *)
Definition predict_args : PredictFile.Args := {|
  PredictFile.audio_path := "loud.wav";
  PredictFile.model := "baseline_logreg.joblib";
  PredictFile.config := "other.yaml";
|}.

(** Two disks: one holds the artifact as written, the other the stream
    with the other stored configuration. *)
Definition w1 : world :=
  World [] (<["baseline_logreg.joblib" := [Byte.x80; Byte.x04]]> ∅).
Definition w2 : world :=
  World [] (<["baseline_logreg.joblib" := [Byte.x00]]> ∅).

(** A disk whose artifact holds the model alone. *)
Definition w3 : world :=
  World [] (<["baseline_logreg.joblib" := [Byte.x01]]> ∅).

End Sample.

(** ** Further views of the assembly loop *)

Section LoopViews.
Context `{Numpy} `{Librosa}.

(** The integer in a row's label cell, when there is one. *)
Definition int_label (r : row) : option Z :=
  match row_label r with
  | IntCell z => Some z
  | NotInt _ => None
  end.

(** The lines the loop prints on any manifest: one for every row whose file
    fails, and one for every row whose file featurizes but whose label cell
    makes [int] raise. *)
Definition skip_lines (cfg : Config) (df : list row) : list string :=
  omap (fun r => match TrainBaseline.featurize (row_path r) cfg with
                 | Raise ex => Some (TrainBaseline.skip_line r ex)
                 | Ok _ =>
                     match py_int (row_label r) with
                     | Raise ex => Some (TrainBaseline.skip_line r ex)
                     | Ok _ => None
                     end
                 end) df.

End LoopViews.

(** ** Views of the data scripts *)

Section DataViews.
Context `{Requests} `{Bs4} `{Pathlib} `{Pandas}.


(** Where the download loop stores a link. *)
Definition target_of (out_dir url : string) : string :=
  joinpath out_dir (PyStr.last_component url).


(** A path the manifest script takes: a regular file with an audio
    extension, in any case. *)
Definition audio_file (p : string) : Prop :=
  is_file p = true /\ PyStr.lower (suffix p) ∈ PrepareManifest.AUDIO_EXTS.

(** What pandas promises of [sample(frac=1.0)]: every row position once. *)
Definition sample_permutes : Prop :=
  forall n random_state, sample_positions n random_state ≡ₚ seq 0 n.

End DataViews.

(** ** Further concrete inputs

    Manifests for the edge cases of the training loop, and one small
    installation of the libraries of the data scripts. *)

Module Cases.

(** Manifests by name: one class only, an empty file next to a sounding one,
    a label cell that is not an integer, a label beyond 64 bits. *)
Definition runtime : @Runtime Sample.sklearn := {|
  read_config := fun p => Ok Sample.cfg;
  read_csv := fun p =>
    if String.eqb p "piano_only.csv" then
      Ok [Row "a.wav" (IntCell 1); Row "corrupt.wav" (IntCell 0);
          Row "loud.wav" (IntCell 1)]
    else if String.eqb p "with_empty.csv" then
      Ok [Row "empty.wav" (IntCell 1); Row "a.wav" (IntCell 0)]
    else if String.eqb p "bad_label.csv" then
      Ok [Row "a.wav" (NotInt "cannot convert float NaN to integer");
          Row "b.wav" (IntCell 0)]
    else if String.eqb p "big_label.csv" then
      Ok [Row "a.wav" (IntCell (2 ^ 63)); Row "b.wav" (IntCell (2 ^ 63))]
    else Ok Sample.df;
  json_dumps := fun m => "{}";
  format_4f := fun p => "0.5000";
|}.

Definition args_for (manifest : string) : TrainBaseline.Args := {|
  TrainBaseline.manifest := manifest;
  TrainBaseline.config := "train_config.yaml";
  TrainBaseline.model_out := "baseline_logreg.joblib";
  TrainBaseline.report_out := "baseline_metrics.json";
|}.

(** The report sent to a directory that cannot be made. *)
Definition readonly_report_args : TrainBaseline.Args := {|
  TrainBaseline.manifest := "manifest.csv";
  TrainBaseline.config := "train_config.yaml";
  TrainBaseline.model_out := "baseline_logreg.joblib";
  TrainBaseline.report_out := "readonly/baseline_metrics.json";
|}.

(** Model and report sent to one file under two spellings. *)
Definition same_path_args : TrainBaseline.Args := {|
  TrainBaseline.manifest := "manifest.csv";
  TrainBaseline.config := "train_config.yaml";
  TrainBaseline.model_out := "out.bin";
  TrainBaseline.report_out := "./out.bin";
|}.

(** A sample page with five anchors that count and four that do not, and a
    server that has every sound file. *)
Definition bs4 : Bs4 := {|
  anchor_hrefs := fun text =>
    [ Some "sound/Piano.ff.B0.aiff"; None; Some ""; Some "MISpiano.html";
      Some "/sound/Piano.ff.A0.AIFF"; Some "http://example.org/x.wav";
      Some "sound/Piano.ff.B0.aiff"; Some "//sound/Piano.pp.C1.wav";
      Some "wav" ];
|}.

Definition requests : Requests := {|
  session_get := fun url =>
    if String.eqb url "https://theremin.music.uiowa.edu/MISpiano.html" then
      Ok {| status_code := 200; text := "<html>"; content := [] |}
    else if String.eqb url "http://example.org/x.wav" then
      Ok {| status_code := 200; text := ""; content := [Byte.x52; Byte.x49] |}
    else
      Ok {| status_code := 200; text := ""; content := [Byte.x46; Byte.x4f] |};
  http_error_str := fun r => "error for url";
|}.

(** A server that answers the page and refuses every sound file. *)
Definition requests_down : Requests := {|
  session_get := fun url =>
    if String.eqb url "https://theremin.music.uiowa.edu/MISpiano.html" then
      Ok {| status_code := 200; text := "<html>"; content := [] |}
    else Ok {| status_code := 503; text := ""; content := [] |};
  http_error_str := fun r => "503 Server Error";
|}.

(** Paths as strings, a leading [./] dropped; a tree with a piano folder
    (a sound file in upper case, a text file, a sub-folder) and a non-piano
    folder, and no folder of mixed material. *)
Definition pathlib : Pathlib := {|
  path_str := fun s =>
    if String.prefix "./" s then String.substring 2 (String.length s - 2) s else s;
  parent := fun p =>
    let name := PyStr.last_component p in
    if String.eqb name p then "."
    else String.substring 0 (String.length p - String.length name - 1) p;
  joinpath := fun d name => d +:+ "/" +:+ name;
  suffix := fun p =>
    if PyStr.endswith p ".WAV" then ".WAV"
    else if PyStr.endswith p ".mp3" then ".mp3"
    else if PyStr.endswith p ".txt" then ".txt"
    else "";
  path_exists := fun d =>
    String.eqb d "raw/piano" || String.eqb d "raw/non_piano";
  rglob_all := fun d =>
    if String.eqb d "raw/piano" then
      ["raw/piano/a.WAV"; "raw/piano/notes.txt"; "raw/piano/uiowa"]
    else if String.eqb d "raw/non_piano" then ["raw/non_piano/n.mp3"]
    else [];
  is_file := fun p => negb (String.eqb p "raw/piano/uiowa");
|}.

(** A shuffle that reverses the rows. *)
Definition pandas : Pandas := {|
  sample_positions := fun n random_state => reverse (seq 0 n);
  to_csv := fun df =>
    String.list_byte_of_string
      (String.concat ";" ((fun r => m_path r +:+ "," +:+ pretty (m_label r)) <$> df));
  series_str := fun counts =>
    String.concat ";" ((fun c => c.1 +:+ "=" +:+ pretty c.2) <$> counts);
|}.

Definition download_args : DownloadUiowaPiano.Args := {|
  DownloadUiowaPiano.out := "raw/piano/uiowa";
  DownloadUiowaPiano.limit := 2;
|}.

Definition downloaded : world :=
  (@DownloadUiowaPiano.main requests bs4 pathlib download_args Sample.w0).2.


Definition same_path_trained : world :=
  (@TrainBaseline.train Sample.sklearn Sample.joblib Sample.runtime pathlib
     Sample.os Sample.cfg same_path_args Sample.kept_X Sample.kept_y
     Sample.w0).2.

Definition manifest_args : PrepareManifest.Args := {|
  PrepareManifest.root := "raw";
  PrepareManifest.out := "labels/manifest.csv";
|}.

Definition manifest_written : world :=
  (@PrepareManifest.main pathlib pandas manifest_args Sample.w0).2.

End Cases.

(** * Properties *)

(** ** The feature extractor *)

Section FeatureExtractor.
Context `{Numpy} `{Librosa}.

Lemma featurize_same path cfg :
  PredictFile.featurize path cfg = TrainBaseline.featurize path cfg.
Proof. reflexivity. Qed.

(** C1 (as the code behaves).  On a file that decodes to zero samples,
    [featurize] of either script returns the all-zero vector of length 12,
    which is not the all-zero vector of length 13 the design document
    asks for. *)
Theorem featurize_empty_signal path cfg sr :
  load path (sample_rate cfg) (max_duration_seconds cfg) = Ok ([], sr) ->
  TrainBaseline.featurize path cfg = Ok (replicate 12 (F32 0)) /\
  PredictFile.featurize path cfg = Ok (replicate 12 (F32 0)) /\
  length (replicate 12 (F32 0)) = 12%nat /\
  replicate 12 (F32 0) <> replicate 13 (F32 0).
Proof.
  intros Hload.
  unfold PredictFile.featurize, TrainBaseline.featurize.
  rewrite Hload. cbn. repeat split. discriminate.
Qed.

(** C2.  On a file that decodes to a non-empty signal, [featurize] returns
    thirteen [float32] numbers: mean, standard deviation and the 10th, 50th
    and 90th percentile of the log-mel matrix, then mean and standard
    deviation of spectral centroid, spectral rolloff, zero-crossing rate and
    RMS energy, in this order. *)
Theorem featurize_nonempty_signal path cfg y sr :
  load path (sample_rate cfg) (max_duration_seconds cfg) = Ok (y, sr) ->
  y <> [] ->
  TrainBaseline.featurize path cfg = Ok (map astype_float32 (layout y sr cfg)) /\
  PredictFile.featurize path cfg = Ok (map astype_float32 (layout y sr cfg)) /\
  length (map astype_float32 (layout y sr cfg)) = 13%nat.
Proof.
  intros Hload Hy.
  unfold PredictFile.featurize, TrainBaseline.featurize.
  rewrite Hload. cbn.
  destruct y as [|s y']; [done|]. cbn. done.
Qed.

End FeatureExtractor.

(** ** The dataset assembly loop *)

Section Assembly.
Context `{Numpy} `{Librosa} `{!Sklearn} `{!Joblib} `{!Runtime} `{!Pathlib} `{!Os}.

Import TrainBaseline.

Lemma loop_body_kept cfg a r v z :
  featurize (row_path r) cfg = Ok v -> row_label r = IntCell z ->
  loop_body cfg a r =
    Acc (acc_X a ++ [v]) (acc_y a ++ [z]) (acc_kept a ++ [row_path r]) (acc_out a).
Proof. intros Hv Hz. unfold loop_body. by rewrite Hv, Hz. Qed.

Lemma loop_body_skipped cfg a r ex :
  featurize (row_path r) cfg = Raise ex ->
  loop_body cfg a r =
    Acc (acc_X a) (acc_y a) (acc_kept a) (acc_out a ++ [skip_line r ex]).
Proof. intros Hex. unfold loop_body. by rewrite Hex. Qed.

(** The hypothesis on the label cell is needed: when [int(row.label)]
    raises, the vector is already in [X]. *)
Remark loop_body_label_raises cfg a r v why :
  featurize (row_path r) cfg = Ok v -> row_label r = NotInt why ->
  loop_body cfg a r =
    Acc (acc_X a ++ [v]) (acc_y a) (acc_kept a)
        (acc_out a ++ [skip_line r (Exn "ValueError" why)]).
Proof. intros Hv Hz. unfold loop_body. by rewrite Hv, Hz. Qed.

(** The loop started from any lists: it appends the kept rows' data and the
    skipped rows' lines. *)
Lemma loop_from cfg df : forall a,
  Forall int_labelled df ->
  foldl (loop_body cfg) a df =
    Acc (acc_X a ++ (kept cfg df).*2)
        (acc_y a ++ omap (fun kr => match row_label kr.1 with
                                    | IntCell z => Some z
                                    | NotInt _ => None
                                    end) (kept cfg df))
        (acc_kept a ++ ((row_path ∘ fst) <$> kept cfg df))
        (acc_out a ++ ((fun se => skip_line se.1 se.2) <$> skipped cfg df)).
Proof.
  induction df as [|r df IH]; intros a Hdf.
  - cbn. rewrite !app_nil_r. by destruct a.
  - apply Forall_cons in Hdf as [[z Hz] Hdf]. cbn [foldl].
    rewrite (IH _ Hdf). unfold kept, skipped. cbn [omap list_omap].
    destruct (featurize (row_path r) cfg) as [v|ex] eqn:Hr.
    + rewrite (loop_body_kept _ _ _ _ _ Hr Hz). cbn. rewrite Hz.
      by rewrite <- !app_assoc.
    + rewrite (loop_body_skipped _ _ _ _ Hr). cbn.
      by rewrite <- !app_assoc.
Qed.

Lemma kept_labels cfg df :
  Forall int_labelled df ->
  IntCell <$> omap (fun kr : row * fvec => match row_label kr.1 with
                              | IntCell z => Some z
                              | NotInt _ => None
                              end) (kept cfg df)
  = (row_label ∘ fst) <$> kept cfg df.
Proof.
  induction 1 as [|r df [z Hz] _ IH]; [done|].
  unfold kept in *. cbn [omap list_omap].
  destruct (featurize (row_path r) cfg); [|done].
  cbn. rewrite Hz. cbn. by rewrite IH.
Qed.

(** C8.  On a manifest in which some files fail to decode the loop does not
    stop: it ends with exactly the rows that featurize (vectors, labels and
    paths, in manifest order), it prints one [skip <path>: <error>] line for
    every failing row, and [main] goes on to train on the kept rows. *)
Theorem decode_failures_are_skipped cfg df :
  Forall int_labelled df ->
  let a := assemble cfg df in
  acc_X a = (kept cfg df).*2 /\
  IntCell <$> acc_y a = (row_label ∘ fst) <$> kept cfg df /\
  acc_kept a = (row_path ∘ fst) <$> kept cfg df /\
  acc_out a = (fun se => skip_line se.1 se.2) <$> skipped cfg df /\
  (forall r ex, r ∈ df -> featurize (row_path r) cfg = Raise ex ->
     ("skip " +:+ row_path r +:+ ": " +:+ exn_str ex) ∈ acc_out a /\
     (r, ex) ∈ skipped cfg df /\ r ∉ (kept cfg df).*1) /\
  (forall args w,
     read_config (config args) = Ok cfg ->
     read_csv (manifest args) = Ok df ->
     main args w =
       train cfg args (acc_X a) (acc_y a)
         (World (stdout w ++ ((fun se => skip_line se.1 se.2) <$> skipped cfg df))
                (files w))).
Proof.
  intros Hdf a.
  assert (Ha : a = Acc ((kept cfg df).*2)
                 (omap (fun kr : row * fvec => match row_label kr.1 with
                                  | IntCell z => Some z
                                  | NotInt _ => None
                                  end) (kept cfg df))
                 ((row_path ∘ fst) <$> kept cfg df)
                 ((fun se => skip_line se.1 se.2) <$> skipped cfg df)).
  { subst a. unfold assemble. by rewrite (loop_from _ _ _ Hdf). }
  rewrite Ha. cbn [acc_X acc_y acc_kept acc_out].
  split_and!; [done|by apply kept_labels|done|done| |].
  - intros r ex Hr Hex. split_and!.
    + apply (list_elem_of_fmap_2' (fun se : row * exn => skip_line se.1 se.2) _ (r, ex)); [|done].
      unfold skipped. apply list_elem_of_omap. exists r. by rewrite Hex.
    + unfold skipped. apply list_elem_of_omap. exists r. by rewrite Hex.
    + intros [[r' v] [-> Hin]]%list_elem_of_fmap.
      unfold kept in Hin. apply list_elem_of_omap in Hin as (r'' & _ & Hsome).
      destruct (featurize (row_path r'') cfg) eqn:E; [|done].
      injection Hsome as -> ->. cbn in Hex. congruence.
  - intros args w Hcfg Hcsv.
    unfold main, mbind, M_bind, Py.bind, lift.
    rewrite Hcfg, Hcsv. fold a. rewrite Ha. done.
Qed.

Lemma kept_aligned cfg df :
  Forall int_labelled df ->
  Forall2 (fun r v => featurize (row_path r) cfg = Ok v)
          (kept cfg df).*1 (kept cfg df).*2 /\
  Forall2 (fun r z => row_label r = IntCell z)
          (kept cfg df).*1
          (omap (fun kr : row * fvec => match row_label kr.1 with
                                        | IntCell z => Some z
                                        | NotInt _ => None
                                        end) (kept cfg df)).
Proof.
  induction 1 as [|r df [z Hz] _ [IH1 IH2]]; [by split; constructor|].
  unfold kept in *. cbn [omap list_omap].
  destruct (featurize (row_path r) cfg) as [v|ex] eqn:Hr; [|by split].
  cbn. rewrite Hz. split; by constructor.
Qed.

(** On a manifest whose label cells are all integers every iteration of the
    loop appends the row's vector and its label together or appends neither,
    so after every iteration [X] and [y] have the same length and the i-th
    vector and the i-th label come from the same row.  A label cell that is
    not an integer breaks this, as [loop_body_label_raises] shows. *)
Lemma rows_are_appended_atomically cfg df :
  Forall int_labelled df ->
  (forall a r, r ∈ df ->
     (exists v z,
        featurize (row_path r) cfg = Ok v /\ row_label r = IntCell z /\
        acc_X (loop_body cfg a r) = acc_X a ++ [v] /\
        acc_y (loop_body cfg a r) = acc_y a ++ [z]) \/
     (acc_X (loop_body cfg a r) = acc_X a /\
      acc_y (loop_body cfg a r) = acc_y a)) /\
  (forall k,
     let a := assemble cfg (take k df) in
     length (acc_X a) = length (acc_y a) /\
     exists rows,
       Forall2 (fun r v => featurize (row_path r) cfg = Ok v) rows (acc_X a) /\
       Forall2 (fun r z => row_label r = IntCell z) rows (acc_y a)).
Proof.
  intros Hdf. split.
  - intros a r Hr.
    destruct (proj1 (Forall_forall _ _) Hdf r Hr) as [z Hz].
    destruct (featurize (row_path r) cfg) as [v|ex] eqn:Hv.
    + left. exists v, z. by rewrite (loop_body_kept _ _ _ _ _ Hv Hz).
    + right. by rewrite (loop_body_skipped _ _ _ _ Hv).
  - intros k a.
    assert (Hk : Forall int_labelled (take k df)) by by apply Forall_take.
    destruct (kept_aligned cfg _ Hk) as [HX Hy].
    subst a. unfold assemble. rewrite (loop_from _ _ _ Hk).
    cbn [acc_X acc_y app].
    split; [|by eexists].
    by rewrite <- (Forall2_length _ _ _ HX), (Forall2_length _ _ _ Hy).
Qed.

End Assembly.

(** ** The guard on the number of classes *)

Section ClassGuard.
Context `{Numpy} `{Librosa} `{!Sklearn} `{!Joblib} `{!Runtime} `{!Pathlib} `{!Os}.

Import TrainBaseline.

Lemma np_unique_length y : length (np_unique y) = length (remove_dups y).
Proof. unfold np_unique. by rewrite merge_sort_Permutation. Qed.

(** The guard lets [y] through exactly when two distinct labels occur in
    it. *)
Lemma check_classes_ok y :
  check_classes y = Ok tt <-> exists a b, a ∈ y /\ b ∈ y /\ a <> b.
Proof.
  unfold check_classes. cbn zeta. rewrite np_unique_length.
  pose proof (NoDup_remove_dups y) as Hnd.
  assert (Hel : forall x, x ∈ remove_dups y <-> x ∈ y)
    by (intros; apply elem_of_remove_dups).
  destruct (remove_dups y) as [|a [|b l]] eqn:E; cbn.
  - split; [done|]. intros (a & _ & Ha & _). apply Hel in Ha. inversion Ha.
  - split; [done|]. intros (x & z & Hx & Hz & Hne).
    apply Hel in Hx, Hz. apply list_elem_of_singleton in Hx, Hz. congruence.
  - split; [|done]. intros _. exists a, b. split_and!.
    + apply Hel. left.
    + apply Hel. right. left.
    + intros ->. apply NoDup_cons in Hnd as [Hnotin _]. apply Hnotin. left.
Qed.

Lemma check_classes_raises y :
  check_classes y <> Ok tt ->
  check_classes y =
    Raise (Exn "RuntimeError"
      "Training requires at least 2 classes. Add non-piano clips under ml/data/raw/non_piano.").
Proof. unfold check_classes. cbn zeta. by case_match. Qed.

(** The cast to 64-bit integers changes no label; it succeeds exactly when
    every label fits. *)
Lemma np_array_int64_Ok y y' :
  np_array_int64 y = Ok y' <->
  y' = y /\ Forall (fun l => - 2 ^ 63 <= l < 2 ^ 63) y.
Proof.
  unfold np_array_int64.
  destruct (forallb _ y) eqn:E.
  - rewrite forallb_forall in E. split; [|by intros [-> _]].
    intros [= <-]. split; [done|]. apply Forall_forall.
    intros l Hl%list_elem_of_In. specialize (E l Hl). lia.
  - split; [done|]. intros [_ Hall].
    assert (forallb (fun l => (- 2 ^ 63 <=? l) && (l <? 2 ^ 63)) y = true);
      [|congruence].
    apply forallb_forall. intros l Hl%list_elem_of_In.
    rewrite Forall_forall in Hall. specialize (Hall l Hl). lia.
Qed.

(** Once the rows are stacked and the labels cast, a failing guard ends the
    run at once: nothing is printed or written, and neither the split nor
    the fit has run. *)
Lemma guard_stops_train cfg args X X' y y' e w :
  np_vstack X = Ok X' -> np_array_int64 y = Ok y' ->
  check_classes y' = Raise e ->
  train cfg args X y w = (Raise e, w).
Proof.
  intros HX Hy He. unfold train, mbind, M_bind, Py.bind, lift.
  by rewrite HX, Hy, He.
Qed.

Lemma loop_all_fail cfg df : forall a,
  Forall (fun r => exists ex, featurize (row_path r) cfg = Raise ex) df ->
  acc_X (foldl (loop_body cfg) a df) = acc_X a /\
  acc_y (foldl (loop_body cfg) a df) = acc_y a.
Proof.
  induction df as [|r df IH]; intros a Hdf; [done|].
  apply Forall_cons in Hdf as [[ex Hex] Hdf]. cbn [foldl].
  destruct (IH (loop_body cfg a r) Hdf) as [-> ->].
  by rewrite (loop_body_skipped _ _ _ _ Hex).
Qed.

(** C5 (as the code behaves).  On a manifest none of whose files decodes,
    no example is kept, so fewer than two labels are present and the class
    guard, if reached, raises; but [main] stops before it, in [np.vstack],
    with a [ValueError]. *)
Theorem no_kept_example_stops_in_vstack cfg df args w :
  read_config (config args) = Ok cfg ->
  read_csv (manifest args) = Ok df ->
  Forall (fun r => exists ex, featurize (row_path r) cfg = Raise ex) df ->
  acc_y (assemble cfg df) = [] /\
  check_classes (acc_y (assemble cfg df)) =
    Raise (Exn "RuntimeError"
      "Training requires at least 2 classes. Add non-piano clips under ml/data/raw/non_piano.") /\
  (main args w).1 =
    Raise (Exn "ValueError" "need at least one array to concatenate").
Proof.
  intros Hcfg Hcsv Hdf.
  destruct (loop_all_fail cfg df (Acc [] [] [] []) Hdf) as [HX Hy].
  cbn in HX, Hy. unfold assemble. rewrite Hy. split_and!; [done|done|].
  unfold main, mbind, M_bind, Py.bind, lift. rewrite Hcfg, Hcsv.
  unfold assemble. cbn. unfold train, mbind, M_bind, Py.bind, lift.
  by rewrite HX.
Qed.

End ClassGuard.

(** ** The decision threshold *)

Section Threshold.
Context `{Numpy} `{Librosa} `{!Sklearn} `{!Joblib} `{!Runtime} `{!Pathlib} `{!Os}.

Import PredictFile.

(** A run of the prediction script that reaches the classifier prints the
    probability and the label the threshold gives it. *)
Lemma predict_main_prints args w cfg b pack m v q p rest :
  read_config (config args) = Ok cfg ->
  files w !! realpath (model args) = Some b ->
  loads b = Ok pack ->
  pack !! "model" = Some (PyModel m) ->
  featurize (audio_path args) cfg = Ok v ->
  predict_proba m [v] = Ok ((q, p) :: rest) ->
  main args w =
    (Ok tt,
     World (stdout w ++
              [ "file=" +:+ audio_path args;
                "piano_probability=" +:+ format_4f p;
                "prediction=" +:+ (if ge_half p then "piano" else "non_piano") ])
           (files w)).
Proof.
  intros Hcfg Hb Hpack Hm Hv Hp.
  unfold main, joblib_load, read_file, pack_model, proba_0_1,
    obj_predict_proba, mbind, M_bind, Py.bind, lift, print.
  rewrite Hcfg, Hb. cbn. rewrite Hpack, Hm, Hv. cbn. rewrite Hp. cbn.
  unfold ge_half. destruct (PrimFloat.leb 0.5 p); cbn; by rewrite <- !app_assoc.
Qed.


End Threshold.

(** ** The two-stage split *)

Section Indexing.
Implicit Types (idx sub pos : list nat).

Lemma safe_indexing_Ok {A} (a : list A) idx rows :
  safe_indexing a idx = Ok rows <->
  Forall2 (fun i x => a !! i = Some x) idx rows.
Proof.
  unfold safe_indexing. rewrite <- mapM_Some.
  destruct (mapM _ idx); split; intros E; by inversion E.
Qed.

Lemma safe_indexing_length {A} (a : list A) idx rows :
  safe_indexing a idx = Ok rows -> length rows = length idx.
Proof. intros E%safe_indexing_Ok. symmetry. by eapply Forall2_length. Qed.

Lemma safe_indexing_app {A} (a : list A) idx1 idx2 rows1 rows2 :
  safe_indexing a idx1 = Ok rows1 -> safe_indexing a idx2 = Ok rows2 ->
  safe_indexing a (idx1 ++ idx2) = Ok (rows1 ++ rows2).
Proof. rewrite !safe_indexing_Ok. apply Forall2_app. Qed.

Lemma safe_indexing_omap {A} (a : list A) idx rows :
  safe_indexing a idx = Ok rows -> rows = omap (fun i => a !! i) idx.
Proof.
  intros E%safe_indexing_Ok.
  induction E as [|i x idx rows Hi _ IH]; [done|].
  cbn. rewrite Hi. cbn. by rewrite <- IH.
Qed.

Lemma omap_all_positions {A} (a : list A) : omap (fun i => a !! i) (seq 0 (length a)) = a.
Proof.
  induction a as [|x a IH] using rev_ind; [done|].
  rewrite length_app, seq_app, omap_app. cbn.
  rewrite list_lookup_middle by done. cbn. f_equal.
  rewrite <- IH at 2. apply list_omap_ext.
  apply Forall2_same_length_lookup_2; [done|].
  intros i j k Hj Hk. assert (j = k) as -> by congruence.
  apply lookup_seq in Hk as [-> Hlt]. by rewrite lookup_app_l.
Qed.

(** Indexing with every position once gives the rows back, reordered. *)
Lemma safe_indexing_all {A} (a : list A) idx rows :
  safe_indexing a idx = Ok rows -> idx ≡ₚ seq 0 (length a) -> rows ≡ₚ a.
Proof.
  intros E Hperm. rewrite (safe_indexing_omap _ _ _ E), Hperm.
  by rewrite omap_all_positions.
Qed.

(** Indexing twice is indexing with the composed positions. *)
Lemma safe_indexing_compose {A} (a : list A) idx rows sub rows' :
  safe_indexing a idx = Ok rows ->
  safe_indexing rows sub = Ok rows' ->
  exists pos, safe_indexing idx sub = Ok pos /\ safe_indexing a pos = Ok rows'.
Proof.
  rewrite safe_indexing_Ok. intros Hidx Hsub%safe_indexing_Ok.
  induction Hsub as [|j v sub rows' Hj _ (pos & Hpos & Hrows)].
  - exists []. by rewrite !safe_indexing_Ok.
  - destruct (Forall2_lookup_r _ _ _ _ _ Hidx Hj) as (i & Hi & Hv).
    exists (i :: pos). apply safe_indexing_Ok in Hpos, Hrows.
    rewrite !safe_indexing_Ok. split; by constructor.
Qed.

(** Whether indexing succeeds depends on the length of the array only. *)
Lemma safe_indexing_same_length {A B} (a : list A) (b : list B) idx rows :
  length b = length a ->
  safe_indexing a idx = Ok rows ->
  exists rows', safe_indexing b idx = Ok rows'.
Proof.
  intros Hlen Hidx%safe_indexing_Ok.
  induction Hidx as [|i x idx rows Hi _ (rows' & IH)].
  - exists []. by apply safe_indexing_Ok.
  - apply lookup_lt_Some in Hi. rewrite <- Hlen in Hi.
    apply lookup_lt_is_Some in Hi as [z Hz].
    exists (z :: rows'). apply safe_indexing_Ok in IH.
    apply safe_indexing_Ok. by constructor.
Qed.

Lemma safe_indexing_zip {A B} (a : list A) (b : list B) idx rows rows' :
  safe_indexing a idx = Ok rows -> safe_indexing b idx = Ok rows' ->
  safe_indexing (zip a b) idx = Ok (zip rows rows').
Proof.
  rewrite !safe_indexing_Ok. intros Ha. revert rows'.
  induction Ha as [|i x idx rows Hi _ IH]; intros rows' Hb;
    inversion Hb as [|? z ? rows'' Hz Hb']; subst; [constructor|].
  cbn. constructor; [|by apply IH].
  apply lookup_zip_with_Some. by exists x, z.
Qed.

(** The converse: rows taken at composed positions are rows of the
    intermediate array. *)
Lemma safe_indexing_factor {A} (a : list A) idx rows sub pos rows' :
  safe_indexing a idx = Ok rows ->
  safe_indexing idx sub = Ok pos ->
  safe_indexing a pos = Ok rows' ->
  safe_indexing rows sub = Ok rows'.
Proof.
  rewrite !safe_indexing_Ok. intros Hidx Hsub. revert rows'.
  induction Hsub as [|j i sub pos Hj _ IH]; intros rows' Hpos;
    inversion Hpos as [|? x ? rows'' Hx Hpos']; subst; constructor;
    [|by apply IH].
  destruct (Forall2_lookup_l _ _ _ _ _ Hidx Hj) as (x' & Hx' & Hx'').
  congruence.
Qed.

End Indexing.

Section Split.
Context `{!Sklearn}.

Import TrainBaseline.

Lemma train_test_split_Ok X y test_size random_state stratify Xa Xb ya yb :
  train_test_split X y test_size random_state stratify = Ok (Xa, Xb, ya, yb) <->
  length X = length y /\
  exists train test,
    shuffle_split X stratify test_size random_state = Ok (train, test) /\
    safe_indexing X train = Ok Xa /\ safe_indexing X test = Ok Xb /\
    safe_indexing y train = Ok ya /\ safe_indexing y test = Ok yb.
Proof.
  unfold train_test_split, mbind, result_bind, rbind.
  destruct (length X =? length y)%nat eqn:Hlen; cbn.
  - apply Nat.eqb_eq in Hlen. split.
    + intros E. split; [done|].
      destruct (shuffle_split _ _ _ _) as [[train test]|]; [|done].
      exists train, test.
      destruct (safe_indexing X train), (safe_indexing X test),
        (safe_indexing y train), (safe_indexing y test); by simplify_eq.
    + intros (_ & train & test & -> & -> & -> & -> & ->). done.
  - apply Nat.eqb_neq in Hlen. split; [done|]. by intros [? _].
Qed.

Lemma val_ratio_Ok cfg r :
  val_ratio cfg = Ok r <->
  PrimFloat.eqb (val_split cfg + test_split cfg) 0 = false /\
  r = (val_split cfg / (val_split cfg + test_split cfg))%float.
Proof.
  unfold val_ratio. destruct (PrimFloat.eqb _ 0).
  - split; [done|]. by intros [? _].
  - split; [by intros [= <-]|]. by intros [_ ->].
Qed.

Lemma split_Ok cfg X y s :
  split cfg X y = Ok s <->
  exists X_temp y_temp,
    train_test_split X y (1 - train_split cfg) (seed cfg) y
      = Ok (X_train s, X_temp, y_train s, y_temp) /\
    PrimFloat.eqb (val_split cfg + test_split cfg) 0 = false /\
    train_test_split X_temp y_temp
        (1 - val_split cfg / (val_split cfg + test_split cfg)) (seed cfg) y_temp
      = Ok (X_val s, X_test s, y_val s, y_test s).
Proof.
  unfold split, mbind, result_bind, rbind. split.
  - intros E.
    destruct (train_test_split X y _ _ _) as [[[[Xa Xb] ya] yb]|]; [|done].
    exists Xb, yb.
    destruct (val_ratio cfg) as [r|] eqn:Hr; [|done].
    apply val_ratio_Ok in Hr as [Hne ->].
    destruct (train_test_split Xb yb _ _ _) as [[[[Xc Xd] yc] yd]|]; [|done].
    by simplify_eq.
  - intros (X_temp & y_temp & -> & Hne & H2).
    rewrite (proj2 (val_ratio_Ok cfg _) (conj Hne eq_refl)), H2. by destruct s.
Qed.

(** The row positions behind a split: the two shuffles, and the positions
    of the validation and test rows in the full arrays. *)
Lemma split_positions cfg X y s :
  split cfg X y = Ok s ->
  exists I_train I_temp J_val J_test I_val I_test X_temp y_temp,
    length X = length y /\
    shuffle_split X y (1 - train_split cfg) (seed cfg)
      = Ok (I_train, I_temp) /\
    safe_indexing X I_temp = Ok X_temp /\
    safe_indexing y I_temp = Ok y_temp /\
    PrimFloat.eqb (val_split cfg + test_split cfg) 0 = false /\
    shuffle_split X_temp y_temp
        (1 - val_split cfg / (val_split cfg + test_split cfg)) (seed cfg)
      = Ok (J_val, J_test) /\
    safe_indexing I_temp J_val = Ok I_val /\
    safe_indexing I_temp J_test = Ok I_test /\
    safe_indexing X I_train = Ok (X_train s) /\
    safe_indexing y I_train = Ok (y_train s) /\
    safe_indexing X I_val = Ok (X_val s) /\
    safe_indexing y I_val = Ok (y_val s) /\
    safe_indexing X I_test = Ok (X_test s) /\
    safe_indexing y I_test = Ok (y_test s).
Proof.
  intros (X_temp & y_temp & H1 & Hne & H2)%split_Ok.
  apply train_test_split_Ok in H1
    as (Hlen & I_train & I_temp & Hs1 & HXtr & HXtmp & Hytr & Hytmp).
  apply train_test_split_Ok in H2
    as (Hlen2 & J_val & J_test & Hs2 & HXv & HXt & Hyv & Hyt).
  destruct (safe_indexing_compose _ _ _ _ _ HXtmp HXv) as (I_val & HIv & HXv').
  destruct (safe_indexing_compose _ _ _ _ _ HXtmp HXt) as (I_test & HIt & HXt').
  destruct (safe_indexing_compose _ _ _ _ _ Hytmp Hyv) as (I_val' & HIv' & Hyv').
  destruct (safe_indexing_compose _ _ _ _ _ Hytmp Hyt) as (I_test' & HIt' & Hyt').
  assert (I_val' = I_val) as -> by congruence.
  assert (I_test' = I_test) as -> by congruence.
  exists I_train, I_temp, J_val, J_test, I_val, I_test, X_temp, y_temp.
  by split_and!.
Qed.

Lemma positions_partition (X X_temp : list fvec) (y y_temp : list Z) t1 t2 r
      I_train I_temp J_val J_test I_val I_test :
  shuffle_split_partitions ->
  shuffle_split X y t1 r = Ok (I_train, I_temp) ->
  safe_indexing X I_temp = Ok X_temp ->
  shuffle_split X_temp y_temp t2 r = Ok (J_val, J_test) ->
  safe_indexing I_temp J_val = Ok I_val ->
  safe_indexing I_temp J_test = Ok I_test ->
  I_train ++ I_val ++ I_test ≡ₚ seq 0 (length X).
Proof.
  intros Hpart Hs1 HXtmp Hs2 HIv HIt.
  rewrite <- (Hpart _ _ _ _ _ _ Hs1). f_equiv.
  apply (safe_indexing_all I_temp (J_val ++ J_test)).
  - by apply safe_indexing_app.
  - rewrite (Hpart _ _ _ _ _ _ Hs2).
    by rewrite (safe_indexing_length _ _ _ HXtmp).
Qed.

(** C3.  The split is made in two stages, the train fraction first and
    then the rest with the ratio [val/(val+test)]; it succeeds exactly when
    both calls of [train_test_split] do and the ratio can be computed.  When
    the shuffle obeys its contract, the three subsets sit at pairwise
    disjoint row positions that together are all the rows: the subsets are a
    rearrangement of the input examples and their sizes add up to the input
    size. *)
Theorem split_is_a_partition cfg X y :
  shuffle_split_partitions ->
  (forall s,
     split cfg X y = Ok s <->
     exists X_temp y_temp,
       train_test_split X y (1 - train_split cfg) (seed cfg) y
         = Ok (X_train s, X_temp, y_train s, y_temp) /\
       PrimFloat.eqb (val_split cfg + test_split cfg) 0 = false /\
       train_test_split X_temp y_temp
           (1 - val_split cfg / (val_split cfg + test_split cfg)) (seed cfg) y_temp
         = Ok (X_val s, X_test s, y_val s, y_test s)) /\
  (forall s,
     split cfg X y = Ok s ->
     exists I_train I_val I_test,
       safe_indexing X I_train = Ok (X_train s) /\
       safe_indexing y I_train = Ok (y_train s) /\
       safe_indexing X I_val = Ok (X_val s) /\
       safe_indexing y I_val = Ok (y_val s) /\
       safe_indexing X I_test = Ok (X_test s) /\
       safe_indexing y I_test = Ok (y_test s) /\
       I_train ++ I_val ++ I_test ≡ₚ seq 0 (length X) /\
       (forall i, i ∈ I_train -> i ∉ I_val) /\
       (forall i, i ∈ I_train -> i ∉ I_test) /\
       (forall i, i ∈ I_val -> i ∉ I_test) /\
       zip (X_train s) (y_train s) ++ zip (X_val s) (y_val s)
         ++ zip (X_test s) (y_test s) ≡ₚ zip X y /\
       (length (X_train s) + length (X_val s) + length (X_test s)
        = length X)%nat).
Proof.
  intros Hpart. split; [intros s; apply split_Ok|].
  intros s Hs.
  destruct (split_positions _ _ _ _ Hs)
    as (I_train & I_temp & J_val & J_test & I_val & I_test & X_temp & y_temp &
        Hlen & Hs1 & HXtmp & Hytmp & Hne & Hs2 & HIv & HIt &
        HXtr & Hytr & HXv & Hyv & HXt & Hyt).
  pose proof (positions_partition _ _ _ _ _ _ _ _ _ _ _ _ _
                Hpart Hs1 HXtmp Hs2 HIv HIt) as Hperm.
  assert (Hnd : NoDup (I_train ++ I_val ++ I_test))
    by (rewrite Hperm; apply NoDup_seq).
  apply NoDup_app in Hnd as (_ & Hdisj1 & Hnd).
  apply NoDup_app in Hnd as (_ & Hdisj2 & _).
  exists I_train, I_val, I_test.
  split_and!; try done.
  - intros i Hi Hv. apply (Hdisj1 i Hi). apply elem_of_app. by left.
  - intros i Hi Ht. apply (Hdisj1 i Hi). apply elem_of_app. by right.
  - apply (safe_indexing_all _ (I_train ++ I_val ++ I_test)).
    + repeat apply safe_indexing_app; by apply safe_indexing_zip.
    + rewrite length_zip, <- Hlen, Nat.min_id. done.
  - rewrite (safe_indexing_length _ _ _ HXtr), (safe_indexing_length _ _ _ HXv),
      (safe_indexing_length _ _ _ HXt).
    apply Permutation_length in Hperm.
    rewrite !length_app, length_seq in Hperm. lia.
Qed.

(** The converse of [split_positions]: an array is cut at the positions the
    two shuffles return for it. *)
Lemma split_at_positions cfg (X : list fvec) y
      I_train I_temp J_val J_test I_val I_test X_temp y_temp ytr yv yt :
  length X = length y ->
  shuffle_split X y (1 - train_split cfg) (seed cfg)
    = Ok (I_train, I_temp) ->
  safe_indexing X I_temp = Ok X_temp ->
  safe_indexing y I_temp = Ok y_temp ->
  PrimFloat.eqb (val_split cfg + test_split cfg) 0 = false ->
  shuffle_split X_temp y_temp
      (1 - val_split cfg / (val_split cfg + test_split cfg)) (seed cfg)
    = Ok (J_val, J_test) ->
  safe_indexing I_temp J_val = Ok I_val ->
  safe_indexing I_temp J_test = Ok I_test ->
  safe_indexing y I_train = Ok ytr ->
  safe_indexing y I_val = Ok yv ->
  safe_indexing y I_test = Ok yt ->
  exists s,
    split cfg X y = Ok s /\
    safe_indexing X I_train = Ok (X_train s) /\
    safe_indexing X I_val = Ok (X_val s) /\
    safe_indexing X I_test = Ok (X_test s) /\
    y_train s = ytr /\ y_val s = yv /\ y_test s = yt.
Proof.
  intros Hlen Hs1 HXtmp Hytmp Hne Hs2 HIv HIt Hytr Hyv Hyt.
  destruct (safe_indexing_same_length y X _ _ Hlen Hytr) as (Xtr & HXtr).
  destruct (safe_indexing_same_length y X _ _ Hlen Hyv) as (Xv & HXv).
  destruct (safe_indexing_same_length y X _ _ Hlen Hyt) as (Xt & HXt).
  assert (HlenT : length X_temp = length y_temp)
    by (rewrite (safe_indexing_length _ _ _ HXtmp);
        by rewrite (safe_indexing_length _ _ _ Hytmp)).
  exists {| X_train := Xtr; X_val := Xv; X_test := Xt;
            y_train := ytr; y_val := yv; y_test := yt |}.
  split_and!; try done.
  apply split_Ok. exists X_temp, y_temp. cbn. split_and!; [|done|].
  - apply train_test_split_Ok. split; [done|].
    exists I_train, I_temp. by split_and!.
  - apply train_test_split_Ok. split; [done|].
    exists J_val, J_test.
    split_and!; [done|..]; by eapply safe_indexing_factor.
Qed.

(** Under the shuffle's contract on what it reads, another array of the
    same length with the same labels is cut at the positions of the first. *)
Lemma split_at_same_positions cfg (X X' : list fvec) y
      I_train I_temp J_val J_test I_val I_test X_temp y_temp ytr yv yt :
  shuffle_split_by_position ->
  length X' = length X ->
  length X = length y ->
  shuffle_split X y (1 - train_split cfg) (seed cfg)
    = Ok (I_train, I_temp) ->
  safe_indexing X I_temp = Ok X_temp ->
  safe_indexing y I_temp = Ok y_temp ->
  PrimFloat.eqb (val_split cfg + test_split cfg) 0 = false ->
  shuffle_split X_temp y_temp
      (1 - val_split cfg / (val_split cfg + test_split cfg)) (seed cfg)
    = Ok (J_val, J_test) ->
  safe_indexing I_temp J_val = Ok I_val ->
  safe_indexing I_temp J_test = Ok I_test ->
  safe_indexing y I_train = Ok ytr ->
  safe_indexing y I_val = Ok yv ->
  safe_indexing y I_test = Ok yt ->
  exists s',
    split cfg X' y = Ok s' /\
    safe_indexing X' I_train = Ok (X_train s') /\
    safe_indexing X' I_val = Ok (X_val s') /\
    safe_indexing X' I_test = Ok (X_test s') /\
    y_train s' = ytr /\ y_val s' = yv /\ y_test s' = yt.
Proof.
  intros Hpos HX' Hlen Hs1 HXtmp Hytmp Hne Hs2 HIv HIt Hytr Hyv Hyt.
  destruct (safe_indexing_same_length X X' _ _ HX' HXtmp) as (X_temp' & HXtmp').
  apply (split_at_positions cfg X' y I_train I_temp J_val J_test I_val I_test
           X_temp' y_temp); try done.
  - congruence.
  - by rewrite (Hpos X X' _ _ _ HX').
  - rewrite (Hpos X_temp X_temp'); [done|].
    rewrite (safe_indexing_length _ _ _ HXtmp').
    by rewrite (safe_indexing_length _ _ _ HXtmp).
Qed.

(** C4 (as the code behaves).  The split never orders or inspects the
    examples: scikit-learn chooses row positions from the number of rows,
    the label sequence, the ratios and the seed, at both stages, and the
    script takes the rows found there.  Hence two example lists of the same
    length that carry the same label sequence are cut at the same positions,
    whatever their vectors, and the split of the one succeeds when that of
    the other does. *)
Theorem split_depends_on_positions cfg X X' y s :
  shuffle_split_by_position ->
  length X' = length X ->
  split cfg X y = Ok s ->
  exists I_train I_val I_test s',
    split cfg X' y = Ok s' /\
    safe_indexing X I_train = Ok (X_train s) /\
    safe_indexing X' I_train = Ok (X_train s') /\
    safe_indexing X I_val = Ok (X_val s) /\
    safe_indexing X' I_val = Ok (X_val s') /\
    safe_indexing X I_test = Ok (X_test s) /\
    safe_indexing X' I_test = Ok (X_test s') /\
    y_train s' = y_train s /\ y_val s' = y_val s /\ y_test s' = y_test s.
Proof.
  intros Hpos HX' Hs.
  destruct (split_positions _ _ _ _ Hs)
    as (I_train & I_temp & J_val & J_test & I_val & I_test & X_temp & y_temp &
        Hlen & Hs1 & HXtmp & Hytmp & Hne & Hs2 & HIv & HIt &
        HXtr & Hytr & HXv & Hyv & HXt & Hyt).
  destruct (split_at_same_positions cfg X X' y _ _ _ _ _ _ _ _ _ _ _
              Hpos HX' Hlen Hs1 HXtmp Hytmp Hne Hs2 HIv HIt Hytr Hyv Hyt)
    as (s' & Hs' & HXtr' & HXv' & HXt' & Hy1 & Hy2 & Hy3).
  exists I_train, I_val, I_test, s'. by split_and!.
Qed.

(** Exchanging two entries of a list rearranges it. *)
Lemma insert_head_Permutation {A} (l : list A) j x b :
  l !! j = Some b -> b :: <[j:=x]> l ≡ₚ x :: l.
Proof.
  revert j. induction l as [|c l IH]; intros [|j] Hj; try done.
  - injection Hj as ->. cbn. apply perm_swap.
  - cbn. etrans; [apply perm_swap|]. etrans; [|apply perm_swap].
    apply perm_skip. by apply IH.
Qed.

Lemma exchange_Permutation {A} (l : list A) i j a b :
  l !! i = Some a -> l !! j = Some b -> <[i:=b]> (<[j:=a]> l) ≡ₚ l.
Proof.
  revert i j. induction l as [|x l IH]; intros [|i] [|j] Hi Hj; try done.
  - injection Hi as ->. injection Hj as ->. done.
  - injection Hi as ->. cbn. by apply insert_head_Permutation.
  - injection Hj as ->. cbn. by apply insert_head_Permutation.
  - cbn. apply perm_skip. by apply IH.
Qed.

(** Exchanging two examples of the same label is a reordering of the
    example list that leaves the label sequence as it is. *)
Lemma exchange_same_label (X : list fvec) (y : list Z) p j a b c :
  length X = length y ->
  X !! p = Some a -> y !! p = Some c ->
  X !! j = Some b -> y !! j = Some c ->
  zip (<[p:=b]> (<[j:=a]> X)) y ≡ₚ zip X y.
Proof.
  intros Hlen Hpa Hpc Hjb Hjc.
  pose (Z' := <[p:=(b, c)]> (<[j:=(a, c)]> (zip X y))).
  assert (HX' : Z'.*1 = <[p:=b]> (<[j:=a]> X)).
  { unfold Z'. rewrite !list_fmap_insert. cbn. rewrite fst_zip by lia. done. }
  assert (Hy' : Z'.*2 = y).
  { unfold Z'. rewrite !list_fmap_insert. cbn. rewrite snd_zip by lia.
    rewrite (list_insert_id y j c Hjc). by rewrite list_insert_id. }
  rewrite <- HX'. rewrite <- Hy' at 1. rewrite zip_fst_snd.
  apply exchange_Permutation; apply lookup_zip_with_Some; eauto.
Qed.

(** So the example that sits at a train position lands in the train subset,
    whichever example it is.  When some label has an example in the train
    subset and another one outside it, the two can be exchanged: the result
    is a reordering of the same examples, on which the split succeeds and
    puts the second example into the train subset. *)
Lemma exchange_changes_train cfg X y s a b c :
  shuffle_split_by_position ->
  split cfg X y = Ok s ->
  (a, c) ∈ zip (X_train s) (y_train s) ->
  (b, c) ∈ zip X y ->
  exists X' s',
    zip X' y ≡ₚ zip X y /\ split cfg X' y = Ok s' /\
    (b, c) ∈ zip (X_train s') (y_train s').
Proof.
  intros Hpos Hs Ha Hb.
  apply list_elem_of_lookup in Ha as [k Hk].
  apply lookup_zip_with_Some in Hk as (a' & c' & [= <- <-] & Hka & Hkc).
  apply list_elem_of_lookup in Hb as [j Hj].
  apply lookup_zip_with_Some in Hj as (b' & c' & [= <- <-] & Hjb & Hjc).
  destruct (split_positions _ _ _ _ Hs)
    as (I_train & I_temp & J_val & J_test & I_val & I_test & X_temp & y_temp &
        Hlen & Hs1 & HXtmp & Hytmp & Hne & Hs2 & HIv & HIt &
        HXtr & Hytr & HXv & Hyv & HXt & Hyt).
  pose proof HXtr as HXtr0. pose proof Hytr as Hytr0.
  apply safe_indexing_Ok in HXtr0, Hytr0.
  destruct (Forall2_lookup_r _ _ _ _ _ HXtr0 Hka) as (p & Hp & Hpa).
  destruct (Forall2_lookup_l _ _ _ _ _ Hytr0 Hp) as (c'' & Hkc' & Hpc).
  assert (c'' = c) as -> by congruence.
  assert (Hlen' : length (<[p:=b]> (<[j:=a]> X)) = length X)
    by (by rewrite !length_insert).
  destruct (split_at_same_positions cfg X (<[p:=b]> (<[j:=a]> X)) y
              _ _ _ _ _ _ _ _ _ _ _
              Hpos Hlen' Hlen Hs1 HXtmp Hytmp Hne Hs2 HIv HIt Hytr Hyv Hyt)
    as (s' & Hs' & HXtr' & _ & _ & Hy1 & _).
  exists (<[p:=b]> (<[j:=a]> X)), s'. split_and!; [|done|].
  - by apply (exchange_same_label X y p j a b c).
  - apply safe_indexing_Ok in HXtr'.
    destruct (Forall2_lookup_l _ _ _ _ _ HXtr' Hp) as (b' & Hkb & Hpb).
    rewrite list_lookup_insert_eq in Hpb
      by (rewrite length_insert; by eapply lookup_lt_Some).
    injection Hpb as <-.
    apply list_elem_of_lookup. exists k.
    apply lookup_zip_with_Some. exists b, c. rewrite Hy1. done.
Qed.

(** Therefore no splitter that reads row positions only gives the same
    subsets for every ordering of the examples, unless it keeps every label
    on one side of the train cut. *)
Lemma order_invariance_fails cfg X y s a b c :
  shuffle_split_by_position ->
  split cfg X y = Ok s ->
  (a, c) ∈ zip (X_train s) (y_train s) ->
  (b, c) ∈ zip X y ->
  b ∉ X_train s ->
  ~ (forall X' y' s',
       zip X' y' ≡ₚ zip X y ->
       split cfg X' y' = Ok s' ->
       zip (X_train s') (y_train s') ≡ₚ zip (X_train s) (y_train s)).
Proof.
  intros Hpos Hs Ha Hb Hnot Hinv.
  destruct (exchange_changes_train cfg X y s a b c Hpos Hs Ha Hb)
    as (X' & s' & Hperm & Hs' & Hin).
  specialize (Hinv X' y s' Hperm Hs').
  apply Hnot. apply (elem_of_zip_l b c _ (y_train s)). by rewrite <- Hinv.
Qed.

End Split.

(** ** The model artifact *)

Section Artifact.
Context `{Numpy} `{Librosa} `{!Sklearn} `{!Joblib} `{!Runtime} `{!Pathlib} `{!Os}.

Lemma artifact_model m cfg :
  TrainBaseline.artifact m cfg !! "model" = Some (PyModel m).
Proof. unfold TrainBaseline.artifact. by rewrite lookup_insert_eq. Qed.



(** The prediction script reads one key of the loaded dictionary. *)
Lemma predict_main_reads_model_only args w1 w2 b1 b2 pack1 pack2 :
  stdout w1 = stdout w2 ->
  files w1 !! realpath (PredictFile.model args) = Some b1 ->
  files w2 !! realpath (PredictFile.model args) = Some b2 ->
  loads b1 = Ok pack1 -> loads b2 = Ok pack2 ->
  pack1 !! "model" = pack2 !! "model" ->
  (PredictFile.main args w1).1 = (PredictFile.main args w2).1 /\
  stdout (PredictFile.main args w1).2 = stdout (PredictFile.main args w2).2.
Proof.
  intros Hout Hb1 Hb2 Hp1 Hp2 Hmodel.
  unfold PredictFile.main, PredictFile.joblib_load, read_file,
    PredictFile.pack_model, mbind, M_bind, Py.bind, lift, print.
  destruct (read_config (PredictFile.config args)) as [cfg|]; [|done].
  rewrite Hb1, Hb2. cbn. rewrite Hp1, Hp2, Hmodel.
  destruct (pack2 !! "model") as [o|]; [|done].
  destruct (PredictFile.featurize (PredictFile.audio_path args) cfg) as [v|];
    [|done].
  cbn. destruct (PredictFile.proba_0_1 o [v]); [|done].
  cbn. by rewrite Hout.
Qed.

(** C9.  The prediction script never compares the configuration it is
    given with the one stored in the artifact.  Two artifacts that hold the
    same model and any two stored configurations give the same outcome and
    the same printed lines; and whenever the given configuration lets the
    file featurize and the model answers, the run completes, printing the
    probability and label that the given configuration produces. *)
Theorem stored_config_is_not_consulted args w1 w2 b1 b2 m stored1 stored2 :
  stdout w1 = stdout w2 ->
  files w1 !! realpath (PredictFile.model args) = Some b1 ->
  files w2 !! realpath (PredictFile.model args) = Some b2 ->
  loads b1 = Ok (TrainBaseline.artifact m stored1) ->
  loads b2 = Ok (TrainBaseline.artifact m stored2) ->
  (PredictFile.main args w1).1 = (PredictFile.main args w2).1 /\
  stdout (PredictFile.main args w1).2 = stdout (PredictFile.main args w2).2 /\
  (forall cfg v q p rest,
     read_config (PredictFile.config args) = Ok cfg ->
     PredictFile.featurize (PredictFile.audio_path args) cfg = Ok v ->
     predict_proba m [v] = Ok ((q, p) :: rest) ->
     PredictFile.main args w1 =
       (Ok tt,
        World (stdout w1 ++
                 [ "file=" +:+ PredictFile.audio_path args;
                   "piano_probability=" +:+ format_4f p;
                   "prediction=" +:+ (if ge_half p then "piano" else "non_piano") ])
              (files w1))).
Proof.
  intros Hout Hb1 Hb2 Hp1 Hp2.
  destruct (predict_main_reads_model_only _ _ _ _ _ _ _ Hout Hb1 Hb2 Hp1 Hp2)
    as [Hres Hprint]; [by rewrite !artifact_model|].
  split_and!; [done|done|].
  intros cfg v q p rest Hcfg Hv Hp.
  eapply predict_main_prints; eauto using artifact_model.
Qed.

End Artifact.

(** ** A whole training run *)

Section TrainingRun.
Context `{Numpy} `{Librosa} `{!Sklearn} `{!Joblib} `{!Runtime} `{!Pathlib} `{!Os}.

Import TrainBaseline.

(** The loop on any manifest, whatever its label cells hold. *)
Lemma loop_any cfg df : forall a,
  foldl (loop_body cfg) a df =
    Acc (acc_X a ++ (kept cfg df).*2)
        (acc_y a ++ omap (fun kr => int_label kr.1) (kept cfg df))
        (acc_kept a ++
           omap (fun kr => (fun _ => row_path kr.1) <$> int_label kr.1) (kept cfg df))
        (acc_out a ++ skip_lines cfg df).
Proof.
  induction df as [|r df IH]; intros a.
  - cbn. rewrite !app_nil_r. by destruct a.
  - cbn [foldl]. rewrite IH. unfold kept, skip_lines, loop_body, int_label.
    cbn [omap list_omap].
    destruct (featurize (row_path r) cfg) as [v|ex]; cbn.
    + destruct (row_label r); cbn; by rewrite <- ?app_assoc.
    + by rewrite <- ?app_assoc.
Qed.

Lemma omap_length_le {A B} (f : A -> option B) l :
  (length (omap f l) <= length l)%nat.
Proof. induction l as [|x l IH]; cbn; [done|]. destruct (f x); cbn; lia. Qed.

Lemma omap_length_lt {A B} (f : A -> option B) l x :
  x ∈ l -> f x = None -> (length (omap f l) < length l)%nat.
Proof.
  induction l as [|x' l IH]; [by intros ?%elem_of_nil|].
  intros [->|Hin]%elem_of_cons Hx; cbn.
  - rewrite Hx. pose proof (omap_length_le f l). lia.
  - specialize (IH Hin Hx). destruct (f x'); cbn; lia.
Qed.

Lemma np_vstack_Ok X Xs :
  np_vstack X = Ok Xs ->
  Xs = X /\ X <> [] /\ forall u v, u ∈ X -> v ∈ X -> length u = length v.
Proof.
  unfold np_vstack. destruct X as [|x X]; [done|].
  destruct (forallb _ X) eqn:Hall; [|done].
  intros [= <-]. split_and!; [done|done|].
  assert (Hx : forall u, u ∈ x :: X -> length u = length x).
  { intros u [->|Hu]%elem_of_cons; [done|].
    rewrite forallb_forall in Hall. apply Nat.eqb_eq, Hall.
    by apply list_elem_of_In. }
  intros u v Hu Hv. by rewrite (Hx u Hu), (Hx v Hv).
Qed.

Lemma np_vstack_ragged X u v :
  u ∈ X -> v ∈ X -> length u <> length v ->
  exists msg, np_vstack X = Raise (Exn "ValueError" msg).
Proof.
  intros Hu Hv Hne. destruct (np_vstack X) as [Xs|e] eqn:E.
  - apply np_vstack_Ok in E as (_ & _ & Hlen). by destruct (Hne (Hlen u v Hu Hv)).
  - unfold np_vstack in E. destruct X as [|x X]; [by apply elem_of_nil in Hu|].
    destruct (forallb _ X); [done|]. injection E as <-. by eexists.
Qed.

Lemma np_array_int64_raises y :
  ~ Forall (fun l => - 2 ^ 63 <= l < 2 ^ 63) y ->
  exists msg, np_array_int64 y = Raise (Exn "OverflowError" msg).
Proof.
  intros Hnot. destruct (np_array_int64 y) as [y'|e] eqn:E.
  - apply np_array_int64_Ok in E as [_ Hall]. by destruct Hnot.
  - unfold np_array_int64 in E. destruct (forallb _ y); [done|].
    injection E as <-. by eexists.
Qed.

(** What [train] does to the disk.  It raises before it has written
    anything; or it has fitted a model and written the artifact, and then
    either raises on the way to the report (its directory cannot be made,
    its file cannot be opened) or writes the report and prints its three
    lines. *)
Lemma train_outcome cfg args X y w :
  (exists e, train cfg args X y w = (Raise e, w)) \/
  (exists Xs s m metrics,
     np_vstack X = Ok Xs /\ np_array_int64 y = Ok y /\
     check_classes y = Ok tt /\ split cfg Xs y = Ok s /\
     fit (classifier_C cfg) (classifier_max_iter cfg) (classifier_class_weight cfg)
         (X_train s) (y_train s) = Ok m /\
     num_samples metrics = Z.of_nat (length y) /\
     ((exists e,
         (mkdir_parents (parent (report_out args)) = Raise e \/
          open_error (path_str (report_out args)) = Some e) /\
         train cfg args X y w =
           (Raise e,
            World (stdout w)
                  (<[realpath (path_str (model_out args)) := dumps (artifact m cfg)]>
                     (files w)))) \/
      train cfg args X y w =
        (Ok tt,
         World (stdout w ++
                  [ "model: " +:+ path_str (model_out args);
                    "report: " +:+ path_str (report_out args);
                    "val_auc=" +:+ format_4f (val_auc metrics) +:+
                    " test_auc=" +:+ format_4f (test_auc metrics) ])
               (<[realpath (path_str (report_out args))
                    := String.list_byte_of_string (json_dumps metrics)]>
                  (<[realpath (path_str (model_out args)) := dumps (artifact m cfg)]>
                     (files w)))))).
Proof.
  unfold train, mbind, M_bind, Py.bind, lift, write_file, print.
  destruct (np_vstack X) as [Xs|] eqn:HX; [|by left; eexists].
  destruct (np_array_int64 y) as [y'|] eqn:Hy64; [|by left; eexists].
  pose proof (proj1 (np_array_int64_Ok _ _) Hy64) as [-> _].
  destruct (check_classes y) as [[]|] eqn:Hy; [|by left; eexists].
  destruct (split cfg Xs y) as [s|] eqn:Hs; [|by left; eexists].
  destruct (fit _ _ _ _ _) as [m|] eqn:Hm; [|by left; eexists].
  destruct (map snd <$> predict_proba m (X_val s)) as [vp|]; [|by left; eexists].
  destruct (map snd <$> predict_proba m (X_test s)) as [tp|]; [|by left; eexists].
  destruct (classification_report (y_val s) _) as [vr|]; [|by left; eexists].
  destruct (classification_report (y_test s) _) as [tr|]; [|by left; eexists].
  destruct (roc_auc_score (y_val s) _) as [va|]; [|by left; eexists].
  destruct (roc_auc_score (y_test s) _) as [ta|]; [|by left; eexists].
  destruct (mkdir_parents (parent (model_out args))) as [[]|]; [|by left; eexists].
  destruct (open_error (path_str (model_out args))); [by left; eexists|].
  right. exists Xs, s, m,
    {| val_report := vr; test_report := tr; val_auc := va; test_auc := ta;
       num_samples := Z.of_nat (length y) |}.
  split_and!; try done. cbn.
  destruct (mkdir_parents (parent (report_out args))) as [[]|e2] eqn:Hmk.
  2:{ left. exists e2. split; [by left|done]. }
  destruct (open_error (path_str (report_out args))) as [e2|] eqn:Hop.
  { left. exists e2. split; [by right|done]. }
  right. cbn. by rewrite <- !app_assoc.
Qed.

Lemma main_unfold args w cfg df :
  read_config (config args) = Ok cfg ->
  read_csv (manifest args) = Ok df ->
  main args w =
    train cfg args (acc_X (assemble cfg df)) (acc_y (assemble cfg df))
      (World (stdout w ++ acc_out (assemble cfg df)) (files w)).
Proof.
  intros Hcfg Hcsv. unfold main, mbind, M_bind, Py.bind, lift.
  by rewrite Hcfg, Hcsv.
Qed.


(** X2.  When the report path names the file the model path names, a
    completed run leaves the JSON report in that file: the report is
    written after the artifact and replaces it. *)
Theorem report_replaces_artifact_on_equal_paths cfg args X y w w' :
  realpath (path_str (report_out args)) = realpath (path_str (model_out args)) ->
  train cfg args X y w = (Ok tt, w') ->
  exists metrics,
    files w' !! realpath (path_str (model_out args))
      = Some (String.list_byte_of_string (json_dumps metrics)) /\
    num_samples metrics = Z.of_nat (length y).
Proof.
  intros Hsame Hrun.
  destruct (train_outcome cfg args X y w)
    as [[e He]|(Xs & s & m & metrics & _ & _ & _ & _ & _ & Hn &
                [(e & _ & He)|Hrun'])];
    [congruence|congruence|].
  rewrite Hrun' in Hrun. injection Hrun as <-.
  exists metrics. split; [|done]. cbn. rewrite Hsame. apply lookup_insert_eq.
Qed.

(** X3.  Once at least one example is kept and the kept vectors stack, a
    run whose kept labels fit 64-bit integers and are all equal stops at the
    class guard with the [RuntimeError]; a run with a kept label outside
    the 64-bit range stops before the guard, in [np.array], with an
    [OverflowError].  Either way only the skip lines have been printed and
    nothing is written.  The guard lets a label list through exactly when
    it holds two distinct labels. *)
Theorem single_class_stops_at_the_guard cfg df args w Xs :
  read_config (config args) = Ok cfg ->
  read_csv (manifest args) = Ok df ->
  np_vstack (acc_X (assemble cfg df)) = Ok Xs ->
  (Forall (fun l => - 2 ^ 63 <= l < 2 ^ 63) (acc_y (assemble cfg df)) ->
   (forall a b, a ∈ acc_y (assemble cfg df) -> b ∈ acc_y (assemble cfg df) -> a = b) ->
   main args w =
     (Raise (Exn "RuntimeError"
        "Training requires at least 2 classes. Add non-piano clips under ml/data/raw/non_piano."),
      World (stdout w ++ acc_out (assemble cfg df)) (files w))) /\
  (~ Forall (fun l => - 2 ^ 63 <= l < 2 ^ 63) (acc_y (assemble cfg df)) ->
   exists msg,
     main args w =
       (Raise (Exn "OverflowError" msg),
        World (stdout w ++ acc_out (assemble cfg df)) (files w))) /\
  (forall y, check_classes y = Ok tt <-> exists a b, a ∈ y /\ b ∈ y /\ a <> b).
Proof.
  intros Hcfg Hcsv HX. split_and!; [| |apply check_classes_ok].
  - intros Hfit Hone. rewrite (main_unfold _ _ _ _ Hcfg Hcsv).
    eapply guard_stops_train; [done| |].
    + by apply np_array_int64_Ok.
    + apply check_classes_raises.
      intros (a & b & Ha & Hb & Hne)%check_classes_ok. by apply Hne, Hone.
  - intros Hbig. destruct (np_array_int64_raises _ Hbig) as [msg Hmsg].
    exists msg. rewrite (main_unfold _ _ _ _ Hcfg Hcsv).
    unfold train, mbind, M_bind, Py.bind, lift.
    by rewrite HX, Hmsg.
Qed.

Lemma featurize_empty_length path cfg sr :
  load path (sample_rate cfg) (max_duration_seconds cfg) = Ok ([], sr) ->
  exists v, featurize path cfg = Ok v /\ length v = 12%nat.
Proof.
  intros Hload. unfold featurize. rewrite Hload. cbn. by eexists.
Qed.

Lemma featurize_nonempty_length path cfg y sr :
  load path (sample_rate cfg) (max_duration_seconds cfg) = Ok (y, sr) ->
  y <> [] ->
  exists v, featurize path cfg = Ok v /\ length v = 13%nat.
Proof.
  intros Hload Hy. unfold featurize. rewrite Hload. cbn.
  destruct y; [done|]. cbn. by eexists.
Qed.

Lemma kept_vector cfg df r v :
  r ∈ df -> featurize (row_path r) cfg = Ok v -> (r, v) ∈ kept cfg df.
Proof.
  intros Hr Hv. unfold kept. apply list_elem_of_omap. exists r. by rewrite Hv.
Qed.

(** C10 (as the code behaves).  The loop body appends the vector before it
    converts the label.  On a row whose file featurizes and whose label cell
    makes [int] raise, the vector is appended and no label is: the handler
    prints the skip line and leaves [X] as it is.  From lists of equal
    length the iteration ends with [X] one longer than [y], and a manifest
    that holds such a row ends the loop with [y] shorter than [X]. *)
Theorem label_failure_leaves_vector_without_label cfg a r v why :
  featurize (row_path r) cfg = Ok v ->
  row_label r = NotInt why ->
  acc_X (loop_body cfg a r) = acc_X a ++ [v] /\
  acc_y (loop_body cfg a r) = acc_y a /\
  acc_kept (loop_body cfg a r) = acc_kept a /\
  acc_out (loop_body cfg a r)
    = acc_out a ++ ["skip " +:+ row_path r +:+ ": " +:+ why] /\
  (length (acc_X a) = length (acc_y a) ->
   length (acc_X (loop_body cfg a r)) = S (length (acc_y (loop_body cfg a r)))) /\
  (forall df, r ∈ df ->
     (length (acc_y (assemble cfg df)) < length (acc_X (assemble cfg df)))%nat).
Proof.
  intros Hv Hlabel.
  assert (Hbody : loop_body cfg a r =
            Acc (acc_X a ++ [v]) (acc_y a) (acc_kept a)
                (acc_out a ++ [skip_line r (Exn "ValueError" why)])).
  { unfold loop_body. by rewrite Hv, Hlabel. }
  rewrite Hbody. cbn [acc_X acc_y acc_kept acc_out].
  split_and!; try done.
  - intros Hlen. rewrite length_app. cbn. lia.
  - intros df Hr. unfold assemble. rewrite loop_any. cbn. rewrite length_fmap.
    apply (omap_length_lt _ _ (r, v)); [by apply kept_vector|].
    unfold int_label. cbn. by rewrite Hlabel.
Qed.

(** X4.  A manifest that holds a file decoding to zero samples next to a
    file decoding to at least one sample cannot be trained on: the loop keeps
    a vector of length 12 and one of length 13, and [main] stops in
    [np.vstack] with a [ValueError], writing nothing. *)
Theorem empty_file_among_others_fails_the_run cfg df args w r1 sr1 r2 y2 sr2 :
  read_config (config args) = Ok cfg ->
  read_csv (manifest args) = Ok df ->
  r1 ∈ df ->
  load (row_path r1) (sample_rate cfg) (max_duration_seconds cfg) = Ok ([], sr1) ->
  r2 ∈ df ->
  load (row_path r2) (sample_rate cfg) (max_duration_seconds cfg) = Ok (y2, sr2) ->
  y2 <> [] ->
  exists msg,
    main args w =
      (Raise (Exn "ValueError" msg),
       World (stdout w ++ acc_out (assemble cfg df)) (files w)).
Proof.
  intros Hcfg Hcsv Hr1 Hl1 Hr2 Hl2 Hy2.
  destruct (featurize_empty_length _ _ _ Hl1) as (v1 & Hv1 & Hlen1).
  destruct (featurize_nonempty_length _ _ _ _ Hl2 Hy2) as (v2 & Hv2 & Hlen2).
  assert (HX : acc_X (assemble cfg df) = (kept cfg df).*2)
    by (unfold assemble; by rewrite loop_any).
  destruct (np_vstack_ragged (acc_X (assemble cfg df)) v1 v2) as [msg Hmsg].
  - rewrite HX. apply (list_elem_of_fmap_2' snd _ (r1, v1)); [|done].
    by apply kept_vector.
  - rewrite HX. apply (list_elem_of_fmap_2' snd _ (r2, v2)); [|done].
    by apply kept_vector.
  - lia.
  - exists msg. rewrite (main_unfold _ _ _ _ Hcfg Hcsv).
    unfold train, mbind, M_bind, Py.bind, lift. by rewrite Hmsg.
Qed.

(** X5.  A row whose file featurizes but whose label cell is not an integer
    leaves its vector in [X] without a label in [y]: [y] ends up shorter than
    [X], the run cannot complete, and nothing is written. *)
Theorem non_integer_label_fails_the_run cfg df args w r v why :
  read_config (config args) = Ok cfg ->
  read_csv (manifest args) = Ok df ->
  r ∈ df ->
  featurize (row_path r) cfg = Ok v ->
  row_label r = NotInt why ->
  (length (acc_y (assemble cfg df)) < length (acc_X (assemble cfg df)))%nat /\
  exists e,
    main args w = (Raise e, World (stdout w ++ acc_out (assemble cfg df)) (files w)).
Proof.
  intros Hcfg Hcsv Hr Hv Hlabel.
  assert (Hlt : (length (acc_y (assemble cfg df))
                 < length (acc_X (assemble cfg df)))%nat).
  { unfold assemble. rewrite loop_any. cbn. rewrite length_fmap.
    apply (omap_length_lt _ _ (r, v)); [by apply kept_vector|].
    unfold int_label. cbn. by rewrite Hlabel. }
  split; [done|].
  rewrite (main_unfold _ _ _ _ Hcfg Hcsv).
  destruct (train_outcome cfg args (acc_X (assemble cfg df)) (acc_y (assemble cfg df))
              (World (stdout w ++ acc_out (assemble cfg df)) (files w)))
    as [[e He]|(Xs & s & m & metrics & HX & _ & _ & Hs & _)]; [by exists e|].
  apply np_vstack_Ok in HX as (-> & _).
  apply split_Ok in Hs as (X_temp & y_temp & Hfirst & _).
  apply train_test_split_Ok in Hfirst as (Hlen & _). lia.
Qed.

End TrainingRun.

(** ** A whole prediction run *)

Section PredictionRun.
Context `{Numpy} `{Librosa} `{!Sklearn} `{!Joblib} `{!Runtime} `{!Pathlib} `{!Os}.

Import PredictFile.

(** X6.  The prediction script only reads: it never changes a file.  It
    prints either nothing, when any step raises (unreadable configuration,
    missing or unloadable artifact, no usable ["model"] entry, undecodable
    audio, a classifier error), or exactly its three lines, whose label is
    [piano] exactly when the printed probability [p] satisfies [0.5 <= p]. *)
Theorem prediction_run_outcome args w :
  files (main args w).2 = files w /\
  ((exists e, main args w = (Raise e, w)) \/
   (exists p,
      main args w =
        (Ok tt,
         World (stdout w ++
                  [ "file=" +:+ audio_path args;
                    "piano_probability=" +:+ format_4f p;
                    "prediction=" +:+ (if ge_half p then "piano" else "non_piano") ])
               (files w)))).
Proof.
  unfold main, joblib_load, read_file, mbind, M_bind, Py.bind, lift, print.
  destruct (read_config (config args)) as [cfg|]; [|by split; [|left; eexists]].
  destruct (files w !! realpath (model args)) as [b|];
    [|by split; [|left; eexists]].
  destruct (loads b) as [pack|]; [|by split; [|left; eexists]].
  destruct (pack_model pack) as [o|]; [|by split; [|left; eexists]].
  destruct (featurize (audio_path args) cfg) as [v|]; cbn;
    [|by split; [|left; eexists]].
  destruct (proba_0_1 o [v]) as [p|]; cbn; [|by split; [|left; eexists]].
  split; [done|]. right. exists p. unfold ge_half.
  destruct (PrimFloat.leb 0.5 p); cbn; by rewrite <- !app_assoc.
Qed.

End PredictionRun.

(** ** The artifact between the two scripts *)

Section ArtifactStore.
Context `{Numpy} `{Librosa} `{!Sklearn} `{!Joblib} `{!Runtime} `{!Pathlib} `{!Os}.



End ArtifactStore.

(** ** Strings *)

Section Strings.
Import PyStr.

Lemma string_leb_trans a : forall b c,
  String.leb a b = true -> String.leb b c = true -> String.leb a c = true.
Proof.
  unfold String.leb.
  induction a as [|x a IH]; intros [|y b] [|z c]; cbn; try done.
  unfold Ascii.compare.
  destruct (N.compare_spec (N_of_ascii x) (N_of_ascii y)) as [Hxy|Hxy|Hxy];
    destruct (N.compare_spec (N_of_ascii y) (N_of_ascii z)) as [Hyz|Hyz|Hyz];
    destruct (N.compare_spec (N_of_ascii x) (N_of_ascii z)) as [Hxz|Hxz|Hxz];
    try done; try lia.
  apply IH.
Qed.

#[export] Instance str_le_total : Total str_le.
Proof. intros a b. apply String.leb_total. Qed.

#[export] Instance str_le_trans : Transitive str_le.
Proof. intros a b c. apply string_leb_trans. Qed.





Lemma slice_to_prefix {A} (l : list A) n : slice_to l n `prefix_of` l.
Proof. unfold slice_to. destruct (0 <=? n); apply prefix_take. Qed.

End Strings.

(** ** The download script *)

Section Download.
Context `{Requests} `{Bs4} `{Pathlib}.

Import PyStr DownloadUiowaPiano.




(** One iteration either leaves the files alone or stores the body of a
    successful response where no file, or an empty one, was. *)
Lemma download_one_files out_dir total idx url w :
  files (download_one out_dir total (idx, url) w).2 = files w \/
  exists resp,
    session_get url = Ok resp /\ raise_for_status resp = Ok tt /\
    (files w !! target_of out_dir url = None \/
     files w !! target_of out_dir url = Some []) /\
    download_one out_dir total (idx, url) w =
      (Ok tt,
       World (stdout w ++
                ["[" +:+ pretty idx +:+ "/" +:+ pretty total +:+ "] download "
                 +:+ last_component url])
             (<[target_of out_dir url := content resp]> (files w))).
Proof.
  unfold download_one, exists_nonempty, target_of, mbind, M_bind, Py.bind,
    lift, print, write_bytes.
  destruct (files w !! joinpath out_dir (last_component url)) as [b|] eqn:Hb.
  - destruct b as [|x b]; cbn; [|by left].
    destruct (session_get url) as [resp|]; [|by left].
    destruct (raise_for_status resp) as [[]|] eqn:Hst; [|by left].
    right. exists resp. by split_and!; [..|right|].
  - cbn. destruct (session_get url) as [resp|]; [|by left].
    destruct (raise_for_status resp) as [[]|] eqn:Hst; [|by left].
    right. exists resp. by split_and!; [..|left|].
Qed.

Lemma for_each_cons {A} (f : A -> M unit) x l w :
  for_each f (x :: l) w =
    match f x w with
    | (Ok _, w') => for_each f l w'
    | (Raise e, w') => (Raise e, w')
    end.
Proof. reflexivity. Qed.

(** A property of the world that every iteration keeps holds after the
    loop, however the loop ends. *)
Lemma for_each_invariant {A} (I : world -> Prop) (f : A -> M unit) l :
  (forall x w, x ∈ l -> I w -> I (f x w).2) ->
  forall w, I w -> I (for_each f l w).2.
Proof.
  induction l as [|x l IH]; intros Hstep w Hw; [done|].
  rewrite for_each_cons.
  pose proof (Hstep x w ltac:(left) Hw) as Hx.
  destruct (f x w) as [[[]|e] w1]; [|done].
  apply IH; [|done]. intros y w2 Hy. apply Hstep. by right.
Qed.

(** A property that an iteration establishes for its own item, and that no
    iteration destroys, holds for every item after a loop that completes. *)
Lemma for_each_establishes {A} (P : A -> world -> Prop) (f : A -> M unit) l :
  (forall x w w1, f x w = (Ok tt, w1) -> P x w1) ->
  (forall x y w, P x w -> P x (f y w).2) ->
  forall w w', for_each f l w = (Ok tt, w') -> forall x, x ∈ l -> P x w'.
Proof.
  intros Hown Hkeep. induction l as [|y l IH]; intros w w' Hrun x Hx;
    [by apply elem_of_nil in Hx|].
  rewrite for_each_cons in Hrun.
  destruct (f y w) as [[[]|e] w1] eqn:Hy; [|done].
  apply elem_of_cons in Hx as [->|Hx]; [|by eapply IH].
  apply Hown in Hy.
  replace w' with (for_each f l w1).2 by by rewrite Hrun.
  apply (for_each_invariant (P y)); [|done]. intros z w2 _. apply Hkeep.
Qed.




Lemma download_one_stores out_dir total idx url w w1 :
  download_one out_dir total (idx, url) w = (Ok tt, w1) ->
  is_Some (files w1 !! target_of out_dir url).
Proof.
  unfold download_one, exists_nonempty, target_of, mbind, M_bind, Py.bind,
    lift, print, write_bytes.
  destruct (files w !! joinpath out_dir (last_component url)) as [b|] eqn:Hb.
  - destruct b as [|x b]; cbn.
    + destruct (session_get url) as [resp|]; [|done].
      destruct (raise_for_status resp) as [[]|]; [|done].
      intros [= <-]. cbn. rewrite lookup_insert_eq. by eexists.
    + intros [= <-]. cbn. by eexists.
  - cbn. destruct (session_get url) as [resp|]; [|done].
    destruct (raise_for_status resp) as [[]|]; [|done].
    intros [= <-]. cbn. rewrite lookup_insert_eq. by eexists.
Qed.

Lemma download_one_keeps out_dir total item w path :
  is_Some (files w !! path) ->
  is_Some (files (download_one out_dir total item w).2 !! path).
Proof.
  intros Hpath. destruct item as [idx url].
  destruct (download_one_files out_dir total idx url w)
    as [->|(resp & _ & _ & _ & ->)]; [done|].
  cbn. destruct (decide (target_of out_dir url = path)) as [->|Hne].
  - rewrite lookup_insert_eq. by eexists.
  - by rewrite lookup_insert_ne.
Qed.

(** X9.  After a run that completes, every selected link has its file:
    the target of each link exists on disk. *)
Theorem completed_download_has_every_selected_file args w w' :
  main args w = (Ok tt, w') ->
  exists urls,
    discover_links = Ok urls /\ urls <> [] /\
    forall url, url ∈ slice_to urls (limit args) ->
      is_Some (files w' !! target_of (out args) url).
Proof.
  unfold main, mbind, M_bind, Py.bind, lift, raise, print. intros Hrun.
  destruct discover_links as [urls|]; [|done].
  case_bool_decide as Hurls; [done|].
  exists urls. split_and!; [done|done|].
  set (selected := slice_to urls (limit args)) in *.
  destruct (for_each _ (enumerate1 selected) _) as [[[]|e] w1] eqn:Hloop; [|done].
  injection Hrun as <-. cbn.
  intros url Hurl.
  apply list_elem_of_lookup in Hurl as [i Hi].
  assert (Hitem : (S i, url) ∈ enumerate1 selected).
  { unfold enumerate1. apply list_elem_of_lookup. exists i.
    apply lookup_zip_with_Some. exists (S i), url. split_and!; [done| |done].
    apply lookup_seq. split; [done|]. by eapply lookup_lt_Some. }
  apply (for_each_establishes
           (fun item w2 => is_Some (files w2 !! target_of (out args) item.2))
           (download_one (out args) (length selected)) (enumerate1 selected))
    with (w := World (stdout w ++
                        ["Discovered " +:+ pretty (length urls)
                         +:+ " links, downloading " +:+ pretty (length selected)])
                     (files w)) (x := (S i, url)); [| |done|done].
  - intros [idx u] w2 w3. apply download_one_stores.
  - intros item1 item2 w2. apply download_one_keeps.
Qed.



End Download.

(** ** The manifest script *)

Section Manifest.
Context `{Pathlib} `{Pandas}.

Import PyStr PrepareManifest.

Lemma audio_file_test p :
  is_file p && bool_decide (lower (suffix p) ∈ AUDIO_EXTS) = true <-> audio_file p.
Proof.
  unfold audio_file. rewrite andb_true_iff, bool_decide_eq_true. done.
Qed.

Lemma collect_loop label l : forall rows r,
  r ∈ foldl (fun rows p =>
               if is_file p && bool_decide (lower (suffix p) ∈ AUDIO_EXTS)
               then rows ++ [MRow p label] else rows) rows l
  <-> r ∈ rows \/ exists p, p ∈ l /\ audio_file p /\ r = MRow p label.
Proof.
  induction l as [|p l IH]; intros rows r; cbn.
  - split; [by left|]. intros [?|(p & Hp & _)]; [done|]. by apply elem_of_nil in Hp.
  - rewrite IH. split.
    + intros [Hr|(q & Hq & Haudio & ->)].
      * destruct (is_file p && _) eqn:Htest; [|by left].
        apply elem_of_app in Hr as [Hr| ->%list_elem_of_singleton]; [by left|].
        right. exists p. split_and!; [left| |done]. by apply audio_file_test.
      * right. exists q. split_and!; [by right|done|done].
    + intros [Hr|(q & [->|Hq]%elem_of_cons & Haudio & ->)].
      * left. destruct (is_file p && _); [|done]. apply elem_of_app. by left.
      * left. apply audio_file_test in Haudio. rewrite Haudio.
        apply elem_of_app. right. by apply list_elem_of_singleton.
      * right. by exists q.
Qed.

(** [collect] returns the audio files below an existing directory, each with
    the label it is given. *)
Lemma collect_spec dir label r :
  r ∈ collect dir label <->
  path_exists dir = true /\ m_label r = label /\
  m_path r ∈ rglob_all dir /\ audio_file (m_path r).
Proof.
  unfold collect. destruct (path_exists dir); cbn [negb].
  - rewrite collect_loop. split.
    + intros [Hr|(p & Hp & Haudio & ->)]; [by apply elem_of_nil in Hr|done].
    + intros (_ & <- & Hp & Haudio). right. exists (m_path r). by destruct r.
  - split; [by intros ?%elem_of_nil|]. by intros [? _].
Qed.

Lemma drop_duplicates_spec rows : forall seen,
  NoDup (m_path <$> drop_duplicates seen rows) /\
  (forall r, r ∈ drop_duplicates seen rows -> r ∈ rows /\ m_path r ∉ seen) /\
  (forall r, r ∈ rows -> m_path r ∉ seen ->
     m_path r ∈ m_path <$> drop_duplicates seen rows).
Proof.
  induction rows as [|r rows IH]; intros seen; cbn.
  - split_and!; [constructor|by intros ? ?%elem_of_nil|by intros ? ?%elem_of_nil].
  - destruct (IH seen) as (Hnd & Hsub & Hall).
    destruct (IH (m_path r :: seen)) as (Hnd' & Hsub' & Hall').
    case_bool_decide as Hseen.
    + split_and!; [done| |].
      * intros r' Hr'. destruct (Hsub r' Hr'). split; [by right|done].
      * intros r' [->|Hr']%elem_of_cons Hpath; [done|]. by apply Hall.
    + split_and!.
      * cbn. constructor; [|done].
        intros (r' & Hpath & Hr')%list_elem_of_fmap.
        destruct (Hsub' r' Hr') as [_ Hnot]. apply Hnot. rewrite Hpath. left.
      * intros r' [->|Hr']%elem_of_cons; [split; [left|done]|].
        destruct (Hsub' r' Hr') as [Hin Hnot]. split; [by right|].
        intros Hs. apply Hnot. by right.
      * intros r' [->|Hr']%elem_of_cons Hpath; cbn; [left|].
        destruct (decide (m_path r' = m_path r)) as [->|Hne]; [left|].
        right. apply Hall'; [done|].
        intros [?|?]%elem_of_cons; done.
Qed.

(** X11.  The manifest script stops with its [RuntimeError], having written
    and printed nothing, exactly when none of the three folders [piano],
    [non_piano] and [mixed] under the root exists with an audio file below
    it. *)
Theorem manifest_needs_an_audio_file args w :
  main args w = (Raise (Exn "RuntimeError" "No audio files found under ml/data/raw"), w)
  <->
  forall dir,
    dir ∈ [ joinpath (root args) "piano"; joinpath (root args) "non_piano";
            joinpath (root args) "mixed" ] ->
    path_exists dir = true ->
    forall p, p ∈ rglob_all dir -> ~ audio_file p.
Proof.
  unfold main, mbind, M_bind, Py.bind, lift, raise, write_bytes, print.
  set (rows := collect _ 1 ++ collect _ 0 ++ collect _ 1).
  case_bool_decide as Hrows.
  - split; [|done]. intros _ dir Hdir Hex p Hp Haudio.
    assert (Hno : forall label, MRow p label ∉ rows)
      by (intros label; rewrite Hrows; apply not_elem_of_nil).
    apply elem_of_cons in Hdir as [->|Hdir];
      [|apply elem_of_cons in Hdir as [->|Hdir];
        [|apply list_elem_of_singleton in Hdir as ->]].
    + apply (Hno 1). unfold rows. rewrite !elem_of_app. left.
      by apply collect_spec.
    + apply (Hno 0). unfold rows. rewrite !elem_of_app. right; left.
      by apply collect_spec.
    + apply (Hno 1). unfold rows. rewrite !elem_of_app. right; right.
      by apply collect_spec.
  - split.
    + unfold sample_all. destruct (safe_indexing _ _) eqn:Hs; [done|].
      unfold safe_indexing in Hs. destruct (mapM _ _); [done|].
      injection Hs as <-. discriminate.
    + intros Hnone. destruct rows as [|r rows'] eqn:Heq; [done|].
      assert (Hr : r ∈ rows) by (rewrite Heq; left).
      unfold rows in Hr. rewrite !elem_of_app, !collect_spec in Hr.
      destruct Hr as [(Hex & _ & Hp & Ha)|[(Hex & _ & Hp & Ha)|(Hex & _ & Hp & Ha)]].
      * destruct (Hnone _ ltac:(left) Hex _ Hp Ha).
      * destruct (Hnone _ ltac:(right; left) Hex _ Hp Ha).
      * destruct (Hnone _ ltac:(right; right; left) Hex _ Hp Ha).
Qed.

(** X12.  When pandas' shuffle is a permutation, a completed run of the
    manifest script writes one file, the manifest, whose rows have pairwise
    different paths; every row is an audio file found under [piano] or
    [mixed] with label 1 or under [non_piano] with label 0; and every audio
    file found under the three folders has a row. *)
Theorem manifest_rows_are_the_audio_files args w w' :
  sample_permutes ->
  main args w = (Ok tt, w') ->
  exists df,
    files w' = <[path_str (out args) := to_csv df]> (files w) /\
    NoDup (m_path <$> df) /\
    (forall r, r ∈ df ->
       audio_file (m_path r) /\
       ((m_label r = 1 /\
         (m_path r ∈ rglob_all (joinpath (root args) "piano") \/
          m_path r ∈ rglob_all (joinpath (root args) "mixed"))) \/
        (m_label r = 0 /\
         m_path r ∈ rglob_all (joinpath (root args) "non_piano")))) /\
    (forall dir p,
       dir ∈ [ joinpath (root args) "piano"; joinpath (root args) "non_piano";
               joinpath (root args) "mixed" ] ->
       path_exists dir = true -> p ∈ rglob_all dir -> audio_file p ->
       p ∈ m_path <$> df).
Proof.
  intros Hperm.
  unfold main, mbind, M_bind, Py.bind, lift, raise, write_bytes, print.
  set (rows := collect _ 1 ++ collect _ 0 ++ collect _ 1).
  case_bool_decide as Hrows; [done|].
  unfold sample_all. destruct (safe_indexing _ _) as [df|] eqn:Hdf; [|done].
  cbn. intros [= <-]. exists df.
  assert (Hdf' : df ≡ₚ drop_duplicates [] rows)
    by (eapply safe_indexing_all; [done|apply Hperm]).
  destruct (drop_duplicates_spec rows []) as (Hnd & Hsub & Hall).
  assert (Hrow : forall r, r ∈ rows ->
            audio_file (m_path r) /\
            ((m_label r = 1 /\
              (m_path r ∈ rglob_all (joinpath (root args) "piano") \/
               m_path r ∈ rglob_all (joinpath (root args) "mixed"))) \/
             (m_label r = 0 /\
              m_path r ∈ rglob_all (joinpath (root args) "non_piano")))).
  { intros r. unfold rows. rewrite !elem_of_app, !collect_spec.
    intros [(_ & Hl & Hp & Ha)|[(_ & Hl & Hp & Ha)|(_ & Hl & Hp & Ha)]];
      (split; [done|]); [left|right|left]; (split; [done|]); auto. }
  split_and!; [done|by rewrite Hdf'| |].
  - intros r Hr. rewrite Hdf' in Hr. by apply Hrow, Hsub.
  - intros dir p Hdir Hex Hp Ha. rewrite Hdf'.
    assert (Hin : exists label, MRow p label ∈ rows).
    { unfold rows.
      apply elem_of_cons in Hdir as [->|Hdir];
        [|apply elem_of_cons in Hdir as [->|Hdir];
          [|apply list_elem_of_singleton in Hdir as ->]].
      - exists 1. rewrite !elem_of_app. left. by apply collect_spec.
      - exists 0. rewrite !elem_of_app. right; left. by apply collect_spec.
      - exists 1. rewrite !elem_of_app. right; right. by apply collect_spec. }
    destruct Hin as [label Hin].
    apply (Hall _ Hin). apply not_elem_of_nil.
Qed.

End Manifest.

(** * The theorems at work on the concrete installation *)

(** The middle cut obeys the contracts of the shuffle. *)
Lemma sample_shuffle_split_partitions : @shuffle_split_partitions Sample.sklearn.
Proof.
  intros X stratify test_size random_state train test [= <- <-].
  rewrite <- seq_app.
  change (Nat.divmod (length X) 1 0 1).1 with (length X / 2)%nat.
  replace (length X / 2 + (length X - length X / 2))%nat with (length X);
    [done|].
  pose proof (Nat.div_mod_eq (length X) 2). lia.
Qed.

Lemma sample_shuffle_split_by_position : @shuffle_split_by_position Sample.sklearn.
Proof.
  intros X X' stratify test_size random_state Hlen. cbn. by rewrite Hlen.
Qed.

(** C4 (the claim fails).  Eight examples, four of each label, with the
    ratios 0.5 / 0.25 / 0.25: scikit-learn splits them, four to the train
    subset.  A splitter that reads row positions and puts one of two
    examples of a label into the train subset and the other one elsewhere
    exists, the cut in the middle being one; and no such splitter gives the
    same subsets for every ordering of these examples: exchanging the two
    examples reorders the list and moves the second one into the train
    subset. *)
Lemma split_is_not_order_invariant :
  (exists (S : Sklearn) s a b c,
     @shuffle_split_by_position S /\ @shuffle_split_partitions S /\
     @TrainBaseline.split S Sample.half_cfg Sample.X8 Sample.y8 = Ok s /\
     (a, c) ∈ zip (TrainBaseline.X_train s) (TrainBaseline.y_train s) /\
     (b, c) ∈ zip Sample.X8 Sample.y8 /\
     (b ∉ TrainBaseline.X_train s)) /\
  ~ (exists (S : Sklearn) s a b c,
       @shuffle_split_by_position S /\
       @TrainBaseline.split S Sample.half_cfg Sample.X8 Sample.y8 = Ok s /\
       (a, c) ∈ zip (TrainBaseline.X_train s) (TrainBaseline.y_train s) /\
       (b, c) ∈ zip Sample.X8 Sample.y8 /\
       (b ∉ TrainBaseline.X_train s) /\
       forall X' y' s',
         zip X' y' ≡ₚ zip Sample.X8 Sample.y8 ->
         @TrainBaseline.split S Sample.half_cfg X' y' = Ok s' ->
         zip (TrainBaseline.X_train s') (TrainBaseline.y_train s')
           ≡ₚ zip (TrainBaseline.X_train s) (TrainBaseline.y_train s) /\
         zip (TrainBaseline.X_val s') (TrainBaseline.y_val s')
           ≡ₚ zip (TrainBaseline.X_val s) (TrainBaseline.y_val s) /\
         zip (TrainBaseline.X_test s') (TrainBaseline.y_test s')
           ≡ₚ zip (TrainBaseline.X_test s) (TrainBaseline.y_test s)).
Proof.
  split.
  - exists Sample.sklearn, Sample.split8, [F32 1], [F32 5], 0.
    split_and!.
    + exact sample_shuffle_split_by_position.
    + exact sample_shuffle_split_partitions.
    + reflexivity.
    + left.
    + cbn. do 4 right. left.
    + intros Hin.
      apply (list_elem_of_fmap_2
               (fun v : fvec => match v with
                                | [F32 x] => PrimFloat.eqb x 5
                                | _ => false
                                end)) in Hin.
      vm_compute in Hin.
      repeat (apply elem_of_cons in Hin as [Hin|Hin]; [discriminate Hin|]).
      by apply elem_of_nil in Hin.
  - intros (S & s & a & b & c & Hpos & Hs & Ha & Hb & Hnot & Hinv).
    apply (@order_invariance_fails S Sample.half_cfg Sample.X8 Sample.y8 s a b c
             Hpos Hs Ha Hb Hnot).
    intros X' y' s' Hperm Hs'. by destruct (Hinv X' y' s' Hperm Hs') as [? _].
Qed.

#[local] Existing Instances
  Sample.numpy Sample.librosa Sample.sklearn Sample.joblib Sample.runtime
  Sample.os Cases.pathlib.

Lemma featurize_empty_signal_witness :
  load "empty.wav" (sample_rate Sample.cfg) (max_duration_seconds Sample.cfg)
    = Ok ([], 16000) /\
  (TrainBaseline.featurize "empty.wav" Sample.cfg = Ok (replicate 12 (F32 0)) /\
   PredictFile.featurize "empty.wav" Sample.cfg = Ok (replicate 12 (F32 0)) /\
   length (replicate 12 (F32 0)) = 12%nat /\
   replicate 12 (F32 0) <> replicate 13 (F32 0)).
Proof.
  split; [reflexivity|].
  apply (featurize_empty_signal "empty.wav" Sample.cfg 16000). reflexivity.
Defined.

Lemma featurize_nonempty_signal_witness :
  load "a.wav" (sample_rate Sample.cfg) (max_duration_seconds Sample.cfg)
    = Ok ([0.25; 0.5]%float, 16000) /\
  [0.25; 0.5]%float <> [] /\
  (TrainBaseline.featurize "a.wav" Sample.cfg
     = Ok (map astype_float32 (layout [0.25; 0.5]%float 16000 Sample.cfg)) /\
   PredictFile.featurize "a.wav" Sample.cfg
     = Ok (map astype_float32 (layout [0.25; 0.5]%float 16000 Sample.cfg)) /\
   length (map astype_float32 (layout [0.25; 0.5]%float 16000 Sample.cfg))
     = 13%nat).
Proof.
  split; [reflexivity|]. split; [discriminate|].
  apply (featurize_nonempty_signal "a.wav" Sample.cfg [0.25; 0.5]%float 16000);
    [reflexivity|discriminate].
Defined.

Lemma sample_df_int_labelled : Forall int_labelled Sample.df.
Proof. repeat constructor; by eexists. Qed.

Lemma decode_failures_are_skipped_witness :
  Forall int_labelled Sample.df /\
  TrainBaseline.acc_kept (TrainBaseline.assemble Sample.cfg Sample.df)
    = (row_path ∘ fst) <$> kept Sample.cfg Sample.df /\
  TrainBaseline.acc_out (TrainBaseline.assemble Sample.cfg Sample.df)
    = (fun se => TrainBaseline.skip_line se.1 se.2) <$> skipped Sample.cfg Sample.df /\
  (fun se => TrainBaseline.skip_line se.1 se.2) <$> skipped Sample.cfg Sample.df
    = ["skip corrupt.wav: cannot decode corrupt.wav"].
Proof.
  split; [exact sample_df_int_labelled|].
  pose proof (decode_failures_are_skipped Sample.cfg Sample.df sample_df_int_labelled)
    as (_ & _ & Hkept & Hout & _).
  split; [exact Hkept|]. split; [exact Hout|]. reflexivity.
Defined.

Lemma rows_are_appended_atomically_witness :
  Forall int_labelled Sample.df /\
  length (TrainBaseline.acc_X (TrainBaseline.assemble Sample.cfg (take 3 Sample.df)))
    = length (TrainBaseline.acc_y (TrainBaseline.assemble Sample.cfg (take 3 Sample.df))).
Proof.
  split; [exact sample_df_int_labelled|].
  exact (proj1 (proj2 (rows_are_appended_atomically Sample.cfg Sample.df
                         sample_df_int_labelled) 3%nat)).
Defined.

Lemma no_kept_example_stops_in_vstack_witness :
  read_config (TrainBaseline.config Sample.broken_args) = Ok Sample.cfg /\
  read_csv (TrainBaseline.manifest Sample.broken_args)
    = Ok [Row "corrupt.wav" (IntCell 1); Row "corrupt.wav" (IntCell 0)] /\
  Forall (fun r => exists ex, TrainBaseline.featurize (row_path r) Sample.cfg = Raise ex)
         [Row "corrupt.wav" (IntCell 1); Row "corrupt.wav" (IntCell 0)] /\
  (TrainBaseline.main Sample.broken_args Sample.w0).1
    = Raise (Exn "ValueError" "need at least one array to concatenate").
Proof.
  assert (Hfail : Forall (fun r => exists ex,
                    TrainBaseline.featurize (row_path r) Sample.cfg = Raise ex)
                    [Row "corrupt.wav" (IntCell 1); Row "corrupt.wav" (IntCell 0)]).
  { repeat constructor; eexists; reflexivity. }
  split; [reflexivity|]. split; [reflexivity|]. split; [exact Hfail|].
  exact (proj2 (proj2 (no_kept_example_stops_in_vstack Sample.cfg _
                         Sample.broken_args Sample.w0 eq_refl eq_refl Hfail))).
Defined.


Lemma split_is_a_partition_witness :
  @shuffle_split_partitions Sample.sklearn /\
  TrainBaseline.split Sample.cfg Sample.X4 Sample.y4 = Ok Sample.split4 /\
  exists I_train I_val I_test,
    safe_indexing Sample.X4 I_train = Ok (TrainBaseline.X_train Sample.split4) /\
    safe_indexing Sample.y4 I_train = Ok (TrainBaseline.y_train Sample.split4) /\
    safe_indexing Sample.X4 I_val = Ok (TrainBaseline.X_val Sample.split4) /\
    safe_indexing Sample.y4 I_val = Ok (TrainBaseline.y_val Sample.split4) /\
    safe_indexing Sample.X4 I_test = Ok (TrainBaseline.X_test Sample.split4) /\
    safe_indexing Sample.y4 I_test = Ok (TrainBaseline.y_test Sample.split4) /\
    I_train ++ I_val ++ I_test ≡ₚ seq 0 (length Sample.X4) /\
    (forall i, i ∈ I_train -> i ∉ I_val) /\
    (forall i, i ∈ I_train -> i ∉ I_test) /\
    (forall i, i ∈ I_val -> i ∉ I_test) /\
    zip (TrainBaseline.X_train Sample.split4) (TrainBaseline.y_train Sample.split4)
      ++ zip (TrainBaseline.X_val Sample.split4) (TrainBaseline.y_val Sample.split4)
      ++ zip (TrainBaseline.X_test Sample.split4) (TrainBaseline.y_test Sample.split4)
      ≡ₚ zip Sample.X4 Sample.y4 /\
    (length (TrainBaseline.X_train Sample.split4)
     + length (TrainBaseline.X_val Sample.split4)
     + length (TrainBaseline.X_test Sample.split4)
     = length Sample.X4)%nat.
Proof.
  split; [exact sample_shuffle_split_partitions|]. split; [reflexivity|].
  apply (proj2 (split_is_a_partition Sample.cfg Sample.X4 Sample.y4
                  sample_shuffle_split_partitions) Sample.split4).
  reflexivity.
Defined.

Lemma split_depends_on_positions_witness :
  @shuffle_split_by_position Sample.sklearn /\
  length Sample.X8_exchanged = length Sample.X8 /\
  TrainBaseline.split Sample.half_cfg Sample.X8 Sample.y8 = Ok Sample.split8 /\
  exists I_train I_val I_test s',
    TrainBaseline.split Sample.half_cfg Sample.X8_exchanged Sample.y8 = Ok s' /\
    safe_indexing Sample.X8 I_train = Ok (TrainBaseline.X_train Sample.split8) /\
    safe_indexing Sample.X8_exchanged I_train = Ok (TrainBaseline.X_train s') /\
    safe_indexing Sample.X8 I_val = Ok (TrainBaseline.X_val Sample.split8) /\
    safe_indexing Sample.X8_exchanged I_val = Ok (TrainBaseline.X_val s') /\
    safe_indexing Sample.X8 I_test = Ok (TrainBaseline.X_test Sample.split8) /\
    safe_indexing Sample.X8_exchanged I_test = Ok (TrainBaseline.X_test s') /\
    TrainBaseline.y_train s' = TrainBaseline.y_train Sample.split8 /\
    TrainBaseline.y_val s' = TrainBaseline.y_val Sample.split8 /\
    TrainBaseline.y_test s' = TrainBaseline.y_test Sample.split8.
Proof.
  split; [exact sample_shuffle_split_by_position|].
  split; [reflexivity|]. split; [reflexivity|].
  apply (split_depends_on_positions Sample.half_cfg Sample.X8 Sample.X8_exchanged
           Sample.y8 Sample.split8);
    [exact sample_shuffle_split_by_position|reflexivity|reflexivity].
Defined.

Lemma label_failure_leaves_vector_without_label_witness :
  (exists v, TrainBaseline.featurize "a.wav" Sample.cfg = Ok v) /\
  row_label (Row "a.wav" (NotInt "cannot convert float NaN to integer"))
    = NotInt "cannot convert float NaN to integer" /\
  length (TrainBaseline.acc_X
            (TrainBaseline.loop_body Sample.cfg (TrainBaseline.Acc [] [] [] [])
               (Row "a.wav" (NotInt "cannot convert float NaN to integer"))))
    = 1%nat /\
  TrainBaseline.acc_y
    (TrainBaseline.loop_body Sample.cfg (TrainBaseline.Acc [] [] [] [])
       (Row "a.wav" (NotInt "cannot convert float NaN to integer")))
    = [] /\
  TrainBaseline.acc_out
    (TrainBaseline.loop_body Sample.cfg (TrainBaseline.Acc [] [] [] [])
       (Row "a.wav" (NotInt "cannot convert float NaN to integer")))
    = ["skip a.wav: cannot convert float NaN to integer"].
Proof.
  destruct (TrainBaseline.featurize "a.wav" Sample.cfg) as [v|] eqn:Hv;
    [|discriminate Hv].
  destruct (label_failure_leaves_vector_without_label Sample.cfg
              (TrainBaseline.Acc [] [] [] [])
              (Row "a.wav" (NotInt "cannot convert float NaN to integer"))
              v "cannot convert float NaN to integer" Hv eq_refl)
    as (HX & Hy & _ & Hout & _).
  split; [by exists v|]. split; [reflexivity|].
  split; [by rewrite HX|]. split; [exact Hy|exact Hout].
Defined.



Lemma stored_config_is_not_consulted_witness :
  stdout Sample.w1 = stdout Sample.w2 /\
  files Sample.w1 !! realpath (PredictFile.model Sample.predict_args)
    = Some [Byte.x80; Byte.x04] /\
  files Sample.w2 !! realpath (PredictFile.model Sample.predict_args)
    = Some [Byte.x00] /\
  loads [Byte.x80; Byte.x04]
    = Ok (TrainBaseline.artifact (0.5%float : @Model Sample.sklearn) Sample.cfg) /\
  loads [Byte.x00]
    = Ok (TrainBaseline.artifact (0.5%float : @Model Sample.sklearn) Sample.other_cfg) /\
  (PredictFile.main Sample.predict_args Sample.w1).1
    = (PredictFile.main Sample.predict_args Sample.w2).1 /\
  stdout (PredictFile.main Sample.predict_args Sample.w1).2
    = stdout (PredictFile.main Sample.predict_args Sample.w2).2 /\
  stdout (PredictFile.main Sample.predict_args Sample.w1).2
    = ["file=loud.wav"; "piano_probability=0.5000"; "prediction=piano"].
Proof.
  assert (H1 : stdout Sample.w1 = stdout Sample.w2) by reflexivity.
  assert (H2 : files Sample.w1 !! realpath (PredictFile.model Sample.predict_args)
               = Some [Byte.x80; Byte.x04]) by reflexivity.
  assert (H3 : files Sample.w2 !! realpath (PredictFile.model Sample.predict_args)
               = Some [Byte.x00]) by reflexivity.
  assert (H4 : loads [Byte.x80; Byte.x04]
               = Ok (TrainBaseline.artifact (0.5%float : @Model Sample.sklearn) Sample.cfg))
    by reflexivity.
  assert (H5 : loads [Byte.x00]
               = Ok (TrainBaseline.artifact (0.5%float : @Model Sample.sklearn)
                       Sample.other_cfg)) by reflexivity.
  destruct (stored_config_is_not_consulted Sample.predict_args Sample.w1 Sample.w2
              _ _ _ _ _ H1 H2 H3 H4 H5) as (Hres & Hout & Hrun).
  split_and!; try assumption.
Defined.

(** * The further theorems at work on concrete inputs *)

Section CaseStudies.

#[local] Existing Instances
  Cases.runtime Cases.requests Cases.bs4 Cases.pandas.

Lemma report_replaces_artifact_on_equal_paths_witness :
  realpath (path_str (TrainBaseline.report_out Cases.same_path_args))
    = realpath (path_str (TrainBaseline.model_out Cases.same_path_args)) /\
  @TrainBaseline.train Sample.sklearn Sample.joblib Sample.runtime Cases.pathlib
     Sample.os Sample.cfg Cases.same_path_args Sample.kept_X Sample.kept_y Sample.w0
    = (Ok tt, Cases.same_path_trained) /\
  exists metrics,
    files Cases.same_path_trained
      !! realpath (path_str (TrainBaseline.model_out Cases.same_path_args))
      = Some (String.list_byte_of_string (@json_dumps _ Sample.runtime metrics)) /\
    num_samples metrics = Z.of_nat (length Sample.kept_y).
Proof.
  assert (H1 : realpath (path_str (TrainBaseline.report_out Cases.same_path_args))
               = realpath (path_str (TrainBaseline.model_out Cases.same_path_args)))
    by reflexivity.
  assert (H2 : @TrainBaseline.train Sample.sklearn Sample.joblib Sample.runtime
                 Cases.pathlib Sample.os
                 Sample.cfg Cases.same_path_args Sample.kept_X Sample.kept_y Sample.w0
               = (Ok tt, Cases.same_path_trained)) by (vm_compute; reflexivity).
  split; [exact H1|]. split; [exact H2|].
  exact (@report_replaces_artifact_on_equal_paths Sample.sklearn Sample.joblib
           Sample.runtime Cases.pathlib Sample.os Sample.cfg Cases.same_path_args
           Sample.kept_X Sample.kept_y Sample.w0 Cases.same_path_trained H1 H2).
Defined.

Lemma single_class_stops_at_the_guard_witness :
  read_config (TrainBaseline.config (Cases.args_for "piano_only.csv")) = Ok Sample.cfg /\
  read_csv (TrainBaseline.manifest (Cases.args_for "piano_only.csv"))
    = Ok [Row "a.wav" (IntCell 1); Row "corrupt.wav" (IntCell 0);
          Row "loud.wav" (IntCell 1)] /\
  (exists Xs,
     np_vstack (TrainBaseline.acc_X (TrainBaseline.assemble Sample.cfg
                  [Row "a.wav" (IntCell 1); Row "corrupt.wav" (IntCell 0);
                   Row "loud.wav" (IntCell 1)])) = Ok Xs) /\
  Forall (fun l => - 2 ^ 63 <= l < 2 ^ 63)
    (TrainBaseline.acc_y (TrainBaseline.assemble Sample.cfg
         [Row "a.wav" (IntCell 1); Row "corrupt.wav" (IntCell 0);
          Row "loud.wav" (IntCell 1)])) /\
  (forall a b,
     a ∈ TrainBaseline.acc_y (TrainBaseline.assemble Sample.cfg
           [Row "a.wav" (IntCell 1); Row "corrupt.wav" (IntCell 0);
            Row "loud.wav" (IntCell 1)]) ->
     b ∈ TrainBaseline.acc_y (TrainBaseline.assemble Sample.cfg
           [Row "a.wav" (IntCell 1); Row "corrupt.wav" (IntCell 0);
            Row "loud.wav" (IntCell 1)]) ->
     a = b) /\
  TrainBaseline.main (Cases.args_for "piano_only.csv") Sample.w0 =
    (Raise (Exn "RuntimeError"
       "Training requires at least 2 classes. Add non-piano clips under ml/data/raw/non_piano."),
     World ["skip corrupt.wav: cannot decode corrupt.wav"] ∅).
Proof.
  assert (Hfit : Forall (fun l => - 2 ^ 63 <= l < 2 ^ 63)
     (TrainBaseline.acc_y (TrainBaseline.assemble Sample.cfg
         [Row "a.wav" (IntCell 1); Row "corrupt.wav" (IntCell 0);
          Row "loud.wav" (IntCell 1)]))).
  { change (TrainBaseline.acc_y _) with [1; 1]. repeat constructor; lia. }
  assert (Hone : forall a b,
     a ∈ TrainBaseline.acc_y (TrainBaseline.assemble Sample.cfg
           [Row "a.wav" (IntCell 1); Row "corrupt.wav" (IntCell 0);
            Row "loud.wav" (IntCell 1)]) ->
     b ∈ TrainBaseline.acc_y (TrainBaseline.assemble Sample.cfg
           [Row "a.wav" (IntCell 1); Row "corrupt.wav" (IntCell 0);
            Row "loud.wav" (IntCell 1)]) ->
     a = b).
  { change (TrainBaseline.acc_y _) with [1; 1].
    intros a b Ha Hb.
    repeat (apply elem_of_cons in Ha as [->|Ha]);
      repeat (apply elem_of_cons in Hb as [->|Hb]);
      try done; by apply elem_of_nil in Ha || by apply elem_of_nil in Hb. }
  split; [reflexivity|]. split; [reflexivity|].
  split; [eexists; reflexivity|]. split; [exact Hfit|]. split; [exact Hone|].
  exact (proj1 (single_class_stops_at_the_guard Sample.cfg _
                  (Cases.args_for "piano_only.csv") Sample.w0 _
                  eq_refl eq_refl eq_refl) Hfit Hone).
Defined.

(** A label beyond the 64-bit range and a report directory that cannot be
    made: the first run stops in [np.array] before the class guard, the
    second one after the artifact is on disk. *)
Lemma big_label_stops_before_the_guard :
  exists msg,
    TrainBaseline.main (Cases.args_for "big_label.csv") Sample.w0 =
      (Raise (Exn "OverflowError" msg), World [] ∅).
Proof. eexists. vm_compute. reflexivity. Qed.

Lemma failed_report_directory_leaves_the_artifact :
  TrainBaseline.main Cases.readonly_report_args Sample.w0 =
    (Raise (Exn "PermissionError" "[Errno 13] Permission denied: 'readonly'"),
     World ["skip corrupt.wav: cannot decode corrupt.wav"]
           (<["baseline_logreg.joblib" := [Byte.x80; Byte.x04]]> ∅)).
Proof. vm_compute. reflexivity. Qed.

Lemma empty_file_among_others_fails_the_run_witness :
  read_config (TrainBaseline.config (Cases.args_for "with_empty.csv")) = Ok Sample.cfg /\
  read_csv (TrainBaseline.manifest (Cases.args_for "with_empty.csv"))
    = Ok [Row "empty.wav" (IntCell 1); Row "a.wav" (IntCell 0)] /\
  load "empty.wav" (sample_rate Sample.cfg) (max_duration_seconds Sample.cfg)
    = Ok ([], 16000) /\
  load "a.wav" (sample_rate Sample.cfg) (max_duration_seconds Sample.cfg)
    = Ok ([0.25; 0.5]%float, 16000) /\
  exists msg,
    TrainBaseline.main (Cases.args_for "with_empty.csv") Sample.w0 =
      (Raise (Exn "ValueError" msg),
       World (stdout Sample.w0 ++
                TrainBaseline.acc_out
                  (TrainBaseline.assemble Sample.cfg
                     [Row "empty.wav" (IntCell 1); Row "a.wav" (IntCell 0)]))
             (files Sample.w0)).
Proof.
  split; [reflexivity|]. split; [reflexivity|]. split; [reflexivity|].
  split; [reflexivity|].
  apply (empty_file_among_others_fails_the_run Sample.cfg
           [Row "empty.wav" (IntCell 1); Row "a.wav" (IntCell 0)]
           (Cases.args_for "with_empty.csv") Sample.w0
           (Row "empty.wav" (IntCell 1)) 16000
           (Row "a.wav" (IntCell 0)) [0.25; 0.5]%float 16000);
    try reflexivity.
  - left.
  - right. left.
  - discriminate.
Defined.

Lemma non_integer_label_fails_the_run_witness :
  read_config (TrainBaseline.config (Cases.args_for "bad_label.csv")) = Ok Sample.cfg /\
  read_csv (TrainBaseline.manifest (Cases.args_for "bad_label.csv"))
    = Ok [Row "a.wav" (NotInt "cannot convert float NaN to integer");
          Row "b.wav" (IntCell 0)] /\
  (exists v, TrainBaseline.featurize "a.wav" Sample.cfg = Ok v) /\
  (length (TrainBaseline.acc_y (TrainBaseline.assemble Sample.cfg
             [Row "a.wav" (NotInt "cannot convert float NaN to integer");
              Row "b.wav" (IntCell 0)]))
   < length (TrainBaseline.acc_X (TrainBaseline.assemble Sample.cfg
             [Row "a.wav" (NotInt "cannot convert float NaN to integer");
              Row "b.wav" (IntCell 0)])))%nat.
Proof.
  assert (Hcfg : read_config (TrainBaseline.config (Cases.args_for "bad_label.csv"))
                 = Ok Sample.cfg) by reflexivity.
  assert (Hcsv : read_csv (TrainBaseline.manifest (Cases.args_for "bad_label.csv"))
                 = Ok [Row "a.wav" (NotInt "cannot convert float NaN to integer");
                       Row "b.wav" (IntCell 0)]) by reflexivity.
  destruct (TrainBaseline.featurize "a.wav" Sample.cfg) as [v|] eqn:Hv;
    [|discriminate Hv].
  split; [exact Hcfg|]. split; [exact Hcsv|]. split; [by exists v|].
  exact (proj1 (non_integer_label_fails_the_run Sample.cfg _
                  (Cases.args_for "bad_label.csv") Sample.w0
                  (Row "a.wav" (NotInt "cannot convert float NaN to integer"))
                  v "cannot convert float NaN to integer"
                  Hcfg Hcsv ltac:(left) Hv eq_refl)).
Defined.


Lemma completed_download_has_every_selected_file_witness :
  DownloadUiowaPiano.main Cases.download_args Sample.w0 = (Ok tt, Cases.downloaded) /\
  exists urls,
    DownloadUiowaPiano.discover_links = Ok urls /\ urls <> [] /\
    forall url,
      url ∈ PyStr.slice_to urls (DownloadUiowaPiano.limit Cases.download_args) ->
      is_Some (files Cases.downloaded
                 !! target_of (DownloadUiowaPiano.out Cases.download_args) url).
Proof.
  assert (Hrun : DownloadUiowaPiano.main Cases.download_args Sample.w0
                 = (Ok tt, Cases.downloaded)) by (vm_compute; reflexivity).
  split; [exact Hrun|].
  exact (completed_download_has_every_selected_file Cases.download_args
           Sample.w0 Cases.downloaded Hrun).
Defined.


Lemma sample_pandas_permutes : @sample_permutes Cases.pandas.
Proof. intros n random_state. apply reverse_Permutation. Qed.

Lemma manifest_rows_are_the_audio_files_witness :
  @sample_permutes Cases.pandas /\
  PrepareManifest.main Cases.manifest_args Sample.w0 = (Ok tt, Cases.manifest_written) /\
  exists df,
    files Cases.manifest_written
      = <[path_str (PrepareManifest.out Cases.manifest_args) := to_csv df]>
          (files Sample.w0) /\
    NoDup (m_path <$> df).
Proof.
  assert (Hrun : PrepareManifest.main Cases.manifest_args Sample.w0
                 = (Ok tt, Cases.manifest_written)) by (vm_compute; reflexivity).
  split; [exact sample_pandas_permutes|]. split; [exact Hrun|].
  destruct (manifest_rows_are_the_audio_files Cases.manifest_args Sample.w0
              Cases.manifest_written sample_pandas_permutes Hrun)
    as (df & Hfiles & Hnd & _).
  exists df. by split.
Defined.

End CaseStudies.
